(** * Aura IA: configuration store, provider adapters and request processor

    A shallow embedding of the Python package [aura_ia]:

    - [utils/config.py]      -> [Module Config]
    - [utils/exceptions.py]  -> [Module Exceptions]
    - [core/logger.py]       -> [Module Logger]
    - [core/ai_provider.py]  -> [Module ProviderBase], [Module AIProviderInit]
    - [providers/gemini_provider.py] -> [Module GeminiProvider]
    - [providers/gpt_provider.py]    -> [Module GPTProvider]
    - [core/processor.py]    -> [Module RequestProcessor]

    [Module Props] holds the predicates the statements are written with,
    [Module Demo] a concrete run-time environment for the examples.
    [Module ConfigLoading] embeds how a [Config] is built from the
    environment; [Module Observations] and [Module DemoEnv] serve the
    further properties at the end of the file.

    Python values are an inductive type with Python's truthiness written
    out.  A [dict] is an association list with "replace in place or append"
    as item assignment, because Python dicts iterate in insertion order and
    the code relies on that order ([next(iter(self.providers.values()))],
    [context.items()]).  Side effects (log records, SDK client construction,
    backend calls) are collected in a trace of events; raised exceptions are
    the left summand of the result. *)

From Stdlib Require Import String Ascii List ZArith Bool Lia.
Import ListNotations.
Set Warnings "-register-all".
Local Open Scope string_scope.
Local Open Scope list_scope.

(** String concatenation, kept apart from list append. *)
Infix "+++" := String.append (right associativity, at level 60).

(* ================================================================== *)
(** ** Python values                                                    *)
(* ================================================================== *)
Module Py.

(** [VFloat m e] is the decimal literal [m * 10^e]; the code only passes
    floats through.  [VObj cls] is an instance of a class that keeps the
    default object protocol (always truthy, hashable, no [get], no item
    access) and that [json] cannot encode, such as [decimal.Decimal] or
    [datetime.datetime]. *)
Inductive PyVal : Type :=
| VNone
| VBool (b : bool)
| VInt (z : Z)
| VFloat (m e : Z)
| VStr (s : string)
| VList (l : list PyVal)
| VDict (d : list (string * PyVal))
| VObj (cls : string).

Definition str_nonempty (s : string) : bool :=
  match s with EmptyString => false | String _ _ => true end.

(** [bool(v)] *)
Definition truthy (v : PyVal) : bool :=
  match v with
  | VNone => false
  | VBool b => b
  | VInt z => negb (Z.eqb z 0)
  | VFloat m _ => negb (Z.eqb m 0)
  | VStr s => str_nonempty s
  | VList l => match l with [] => false | _ :: _ => true end
  | VDict d => match d with [] => false | _ :: _ => true end
  | VObj _ => true
  end.

(** [isinstance(v, str)] *)
Definition isinstance_str (v : PyVal) : bool :=
  match v with VStr _ => true | _ => false end.

(** [v is None] *)
Definition is_None (v : PyVal) : bool :=
  match v with VNone => true | _ => false end.

(** Whether [hash(v)] succeeds: lists and dicts are unhashable. *)
Definition hashable (v : PyVal) : bool :=
  match v with VList _ | VDict _ => false | _ => true end.

(** [type(v).__name__] *)
Definition type_name (v : PyVal) : string :=
  match v with
  | VNone => "NoneType" | VBool _ => "bool" | VInt _ => "int"
  | VFloat _ _ => "float" | VStr _ => "str" | VList _ => "list"
  | VDict _ => "dict" | VObj cls => cls
  end.

(** The first object, in the encoder's left-to-right traversal, that
    [json.dumps] cannot encode; [None] when the value is encodable. *)
Fixpoint json_first_bad (v : PyVal) : option PyVal :=
  match v with
  | VObj cls => Some (VObj cls)
  | VList l =>
      (fix go (l : list PyVal) : option PyVal :=
         match l with
         | [] => None
         | x :: r => match json_first_bad x with
                     | Some b => Some b
                     | None => go r
                     end
         end) l
  | VDict d =>
      (fix go (d : list (string * PyVal)) : option PyVal :=
         match d with
         | [] => None
         | (_, x) :: r => match json_first_bad x with
                          | Some b => Some b
                          | None => go r
                          end
         end) d
  | _ => None
  end.

(** *** dict operations on association lists *)

(** [d.get(k)] *)
Fixpoint dict_get {V : Type} (d : list (string * V)) (k : string) : option V :=
  match d with
  | [] => None
  | (k', v) :: r => if String.eqb k k' then Some v else dict_get r k
  end.

(** [k in d] *)
Definition dict_contains {V : Type} (d : list (string * V)) (k : string) : bool :=
  match dict_get d k with Some _ => true | None => false end.

(** [d[k] = v]: an existing key keeps its position, a new key goes last. *)
Fixpoint dict_set {V : Type} (d : list (string * V)) (k : string) (v : V)
  : list (string * V) :=
  match d with
  | [] => [(k, v)]
  | (k', v') :: r =>
      if String.eqb k k' then (k', v) :: r else (k', v') :: dict_set r k v
  end.

(** [d.get(k, default)] *)
Definition dict_get_default {V : Type} (d : list (string * V)) (k : string)
  (default : V) : V :=
  match dict_get d k with Some v => v | None => default end.

(** [list(d.keys())], [list(d.values())] *)
Definition dict_keys {V : Type} (d : list (string * V)) : list string := map fst d.
Definition dict_values {V : Type} (d : list (string * V)) : list V := map snd d.

(** *** strings *)

Definition dot : ascii := "."%char.
Definition nl : string := String (ascii_of_nat 10) EmptyString.

(** [s.split('.')]: never the empty list. *)
Fixpoint split_dot (s : string) : list string :=
  match s with
  | EmptyString => [EmptyString]
  | String c rest =>
      if Ascii.eqb c dot then EmptyString :: split_dot rest
      else match split_dot rest with
           | [] => [String c EmptyString]
           | seg :: segs => String c seg :: segs
           end
  end.

(** [sep.join(parts)] *)
Definition join (sep : string) (parts : list string) : string :=
  String.concat sep parts.

End Py.
Export Py.

(* ================================================================== *)
(** ** utils/exceptions.py and the built-in exceptions the code meets   *)
(* ================================================================== *)
Module Exceptions.

(** Every class here derives from [Exception]; the three Aura classes are
    siblings under [AuraIAException]. *)
Inductive ExnClass : Type :=
| ValueError | TypeError | AttributeError | IndexError | ImportError
| ProviderException | ConfigException | ValidationException
| OtherException (name : string).

(** An exception object: its class and [str(e)]. *)
Record Exn : Type := mkExn { exn_class : ExnClass; exn_str : string }.

(** The operations on which the interpreter or the standard library
    raises by itself in this code: [json.dumps] on an object it cannot
    encode, hashing a dict key, looking up the method [get] on a value
    without one, item access or assignment with a string key on a
    non-mapping, the membership test [k in v] on a value that is not a
    container, and [keys[-1]] on an empty list. *)
Inductive PyOp : Type :=
| OpJsonEncode | OpHash | OpAttrGet | OpItem | OpContains | OpIndexLast.

(** [isinstance(e, ProviderException)], the test of
    [except ProviderException]. *)
Definition is_ProviderException (e : Exn) : bool :=
  match exn_class e with ProviderException => true | _ => false end.

Definition is_ImportError (e : Exn) : bool :=
  match exn_class e with ImportError => true | _ => false end.

End Exceptions.
Export Exceptions.

(* ================================================================== *)
(** ** utils/config.py                                                  *)
(* ================================================================== *)
Module Config.

(** The [Config] object: its one attribute [_config], whatever
    [json.load] or [_load_from_env] stored there. *)
Record t : Type := mk { _config : PyVal }.

Section Interp.

(** [py_message op v]: the text CPython puts in the exception it raises
    when operation [op] fails on operand [v]. *)
Variable py_message : PyOp -> PyVal -> string.

(** The loop of [Config.get] over the remaining segments. *)
Fixpoint get_loop (value : PyVal) (keys : list string) (default : PyVal) : PyVal :=
  match keys with
  | [] => value
  | k :: ks =>
      match value with
      | VDict d =>
          match dict_get d k with
          | None => default
          | Some v' => if is_None v' then default else get_loop v' ks default
          end
      | _ => default
      end
  end.

(** [Config.get(key, default)] *)
Definition get (c : t) (key : string) (default : PyVal) : PyVal :=
  get_loop (_config c) (split_dot key) default.

(** The operation at which one turn of the loop of [Config.set] fails on
    an operand that is not a dict: a [str] or a [list] passes
    [k not in config] and fails at the item access or assignment with a
    string key; the other types fail at [k not in config] itself. *)
Definition loop_failure (config : PyVal) : PyOp :=
  match config with
  | VStr _ | VList _ => OpItem
  | _ => OpContains
  end.

(** The body of [Config.set] on the object currently bound to the local
    [config], for the remaining segments.  It returns that object after
    the in-place updates, and the exception if one was raised.  Every
    non-dict operand ends in [TypeError], in the loop at the operation
    [loop_failure] names and after the loop at the item assignment.
    [IndexError] stands for [keys[-1]] on an empty list, which [split]
    never produces.

    The store is a tree of values: the in-place update of a dict is
    written as the rebuilt dict put back under its key.  This is the
    code's behaviour as long as no dict object is reachable by two paths
    of the store, which is the case for what [json.load] and
    [_load_from_env] build and for what [set] makes of it when the values
    written are not dict objects already held by the store.  A store with
    such sharing (after [set(k, get(k'))] with a dict) is outside the
    model. *)
Fixpoint set_loop (config : PyVal) (keys : list string) (value : PyVal)
  : PyVal * option Exn :=
  match keys with
  | [] => (config, Some (mkExn IndexError (py_message OpIndexLast config)))
  | [k] =>
      match config with
      | VDict d => (VDict (dict_set d k value), None)
      | _ => (config, Some (mkExn TypeError (py_message OpItem config)))
      end
  | k :: ks =>
      match config with
      | VDict d =>
          let d1 := if dict_contains d k then d else dict_set d k (VDict []) in
          let child := dict_get_default d1 k VNone in
          let '(child', exn) := set_loop child ks value in
          (VDict (dict_set d1 k child'), exn)
      | _ => (config,
              Some (mkExn TypeError (py_message (loop_failure config) config)))
      end
  end.

(** [Config.set(key, value)]: the store afterwards and the exception
    raised, if any. *)
Definition set (c : t) (key : string) (value : PyVal) : t * option Exn :=
  let '(cfg', exn) := set_loop (_config c) (split_dot key) value in
  (mk cfg', exn).

(** [Config.get_provider_config(provider_name)] *)
Definition get_provider_config (c : t) (provider_name : string) : Exn + PyVal :=
  let provider_config := get c provider_name (VDict []) in
  if negb (truthy provider_config)
  then inl (mkExn ConfigException
              ("No configuration found for provider: " +++ provider_name))
  else inr provider_config.

End Interp.

End Config.

(* ================================================================== *)
(** ** core/ai_provider.py: configuration record and provider interface *)
(* ================================================================== *)
Module ProviderBase.

(** The dataclass [AIProviderConfig].  The annotations say [str], but the
    processor fills the fields with whatever the configuration holds, so
    they are Python values. *)
Record AIProviderConfig : Type := mkAIProviderConfig {
  api_key : PyVal;
  model : PyVal;
  temperature : PyVal;
  max_tokens : PyVal;
  additional_params : PyVal
}.

(** The default [temperature: float = 0.7]. *)
Definition default_temperature : PyVal := VFloat 7 (-1).

(** The generated [__init__] followed by [__post_init__]. *)
Definition new_AIProviderConfig (api_key model temperature max_tokens
                                 additional_params : PyVal) : AIProviderConfig :=
  mkAIProviderConfig api_key model temperature max_tokens
    (if is_None additional_params then VDict [] else additional_params).

(** [context: Optional[Dict[str, Any]]] and
    [conversation_history: Optional[List[Dict[str, str]]]]. *)
Definition Context : Type := list (string * PyVal).
Definition Message : Type := list (string * string).
Definition History : Type := list Message.

(** [bool(x)] for an optional container argument. *)
Definition nonempty_opt {A : Type} (x : option (list A)) : bool :=
  match x with Some (_ :: _) => true | _ => false end.

(** The items of an optional container that passed [if x:]. *)
Definition items_of {A : Type} (x : option (list A)) : list A :=
  match x with Some l => l | None => [] end.

(** An instance of a subclass of the abstract class [AIProvider]: its
    class name, its [config] and its methods.  [generate_response] is the
    awaited call seen from the caller: the text or the exception raised.
    ([is_available] is advisory and used by no other code; it is left
    out.) *)
Record AIProvider : Type := mkAIProvider {
  class_name : string;
  config : AIProviderConfig;
  generate_response :
    string -> option Context -> option History -> Exn + string;
  get_provider_name : string
}.

End ProviderBase.
Export ProviderBase.

(* ================================================================== *)
(** ** Effects: the trace of events and the exception monad             *)
(* ================================================================== *)
Module Effects.

(** One event per call that leaves the pure part of the program.  The
    four [Log*] events are the calls made on the [InteractionLogger]
    (whether the sink keeps a line depends on the log level); the
    timestamp of the structured records comes from the clock and is not
    part of the event.  [ClientInit] is the construction of an SDK client,
    [Generate] the call of a provider's [generate_response]. *)
Inductive Event : Type :=
| LogInfo (message : string)
| LogWarning (message : string)
| LogError (error_data : PyVal)
| LogInteraction (interaction_data : PyVal)
| ClientInit (provider_class : string) (cfg : AIProviderConfig)
| Generate (provider : AIProvider) (prompt : string)
    (context : option Context) (history : option History).

Definition Trace : Type := list Event.

(** A computation: the events it produced, in order, and either the
    exception that ended it or its value. *)
Definition M (A : Type) : Type := Trace * (Exn + A).

Definition ret {A : Type} (a : A) : M A := ([], inr a).

Definition raise {A : Type} (e : Exn) : M A := ([], inl e).

Definition bind {A B : Type} (m : M A) (f : A -> M B) : M B :=
  match m with
  | (tr, inl e) => (tr, inl e)
  | (tr, inr a) => let '(tr', r) := f a in (tr ++ tr', r)
  end.

(** [try: m  except Exception as e: h e] *)
Definition try_except {A : Type} (m : M A) (h : Exn -> M A) : M A :=
  match m with
  | (tr, inl e) => let '(tr', r) := h e in (tr ++ tr', r)
  | (tr, inr a) => (tr, inr a)
  end.

Definition emit (ev : Event) : M unit := ([ev], inr tt).

(** A pure step that may raise. *)
Definition lift {A : Type} (r : Exn + A) : M A := ([], r).

Definition trace_of {A : Type} (m : M A) : Trace := fst m.
Definition result_of {A : Type} (m : M A) : Exn + A := snd m.

(** Whether the computation ended by raising. *)
Definition raises {A : Type} (m : M A) : bool :=
  match snd m with inl _ => true | inr _ => false end.

(** The provider calls recorded in a trace. *)
Fixpoint invocations (tr : Trace) : list (AIProvider * string) :=
  match tr with
  | [] => []
  | Generate p prompt _ _ :: r => (p, prompt) :: invocations r
  | _ :: r => invocations r
  end.

(** The warnings recorded in a trace. *)
Fixpoint warnings (tr : Trace) : list string :=
  match tr with
  | [] => []
  | LogWarning w :: r => w :: warnings r
  | _ :: r => warnings r
  end.

End Effects.
Export Effects.

Declare Scope py_scope.
Delimit Scope py_scope with py.
Notation "x <- m ;; k" := (bind m (fun x => k))
  (at level 100, m at next level, right associativity) : py_scope.
Notation "m ;;; k" := (bind m (fun _ => k))
  (at level 100, right associativity) : py_scope.
Local Open Scope py_scope.

(* ================================================================== *)
(** ** core/logger.py                                                   *)
(* ================================================================== *)
Module Logger.

Section Interp.
Variable py_message : PyOp -> PyVal -> string.

(** [json.dumps(data, ensure_ascii=False)] as far as the caller can
    tell: it returns, or raises [TypeError] on the first object it cannot
    encode. *)
Definition json_dumps (data : PyVal) : M unit :=
  match json_first_bad data with
  | Some bad => raise (mkExn TypeError (py_message OpJsonEncode bad))
  | None => ret tt
  end.

(** [x or {}] *)
Definition or_empty_dict (x : PyVal) : PyVal :=
  if truthy x then x else VDict [].

Definition log_info (message : string) : M unit := emit (LogInfo message).

Definition log_warning (message : string) : M unit := emit (LogWarning message).

(** [log_error(error_message, error_type, details=None)]: the f-string
    argument, hence [json.dumps], is evaluated before the logging call. *)
Definition log_error (error_message error_type : string) (details : PyVal)
  : M unit :=
  let error_data := VDict [("error_type", VStr error_type);
                           ("error_message", VStr error_message);
                           ("details", or_empty_dict details)] in
  json_dumps error_data ;;;
  emit (LogError error_data).

(** [log_interaction(request, response, provider, metadata=None)] *)
Definition log_interaction (request : PyVal) (response provider : string)
  (metadata : PyVal) : M unit :=
  let interaction_data := VDict [("request", request);
                                 ("response", VStr response);
                                 ("provider", VStr provider);
                                 ("metadata", or_empty_dict metadata)] in
  json_dumps interaction_data ;;;
  emit (LogInteraction interaction_data).

End Interp.
End Logger.

(* ================================================================== *)
(** ** core/ai_provider.py: [AIProvider.__init__]                       *)
(* ================================================================== *)
Module AIProviderInit.

(** [AIProvider._validate_config], for an instance of class [cls]. *)
Definition _validate_config (cls : string) (config : AIProviderConfig) : M unit :=
  if negb (truthy (api_key config))
  then raise (mkExn ValueError (cls +++ " requires an API key"))
  else if negb (truthy (model config))
  then raise (mkExn ValueError (cls +++ " requires a model name"))
  else ret tt.

(** [AIProvider.__init__]: store the configuration, then validate it. *)
Definition __init__ (cls : string) (config : AIProviderConfig) : M unit :=
  _validate_config cls config.

End AIProviderInit.

(* ================================================================== *)
(** ** providers/gemini_provider.py                                     *)
(* ================================================================== *)
Module GeminiProvider.

(** What the provider uses of a [genai.GenerativeModel]:
    [generate_content(full_prompt, generation_config={temperature,
    max_output_tokens}).text], or the exception the call raised. *)
Record Client : Type := mkClient {
  generate_content : string -> PyVal -> PyVal -> Exn + string
}.

Section Interp.
(** Python's [str(v)] / [format(v)] inside an f-string. *)
Variable py_str : PyVal -> string.
(** The body of the [try] in [_initialize_client]: import the package,
    [genai.configure(api_key=...)], [genai.GenerativeModel(model)]. *)
Variable genai_load : PyVal -> PyVal -> Exn + Client.

(** One [f"{k}: {v}"] line of the context. *)
Definition context_line (kv : string * PyVal) : string :=
  fst kv +++ ": " +++ py_str (snd kv).

(** One [f"{msg.get('role', 'user')}: {msg.get('content', '')}"] line. *)
Definition history_line (msg : Message) : string :=
  dict_get_default msg "role" "user" +++ ": "
  +++ dict_get_default msg "content" EmptyString.

(** [GeminiProvider._build_prompt] *)
Definition _build_prompt (prompt : string) (context : option Context)
  (conversation_history : option History) : string :=
  let parts : list string := [] in
  let parts :=
    if nonempty_opt context then
      let context_str := join nl (map context_line (items_of context)) in
      parts ++ ["Context:" +++ nl +++ context_str +++ nl]
    else parts in
  let parts :=
    if nonempty_opt conversation_history then
      let history_str :=
        join nl (map history_line (items_of conversation_history)) in
      parts ++ ["Previous conversation:" +++ nl +++ history_str +++ nl]
    else parts in
  let parts := parts ++ ["User: " +++ prompt] in
  join nl parts.

(** [GeminiProvider.generate_response] of an instance with the given
    [config] and [_client]. *)
Definition generate_response (config : AIProviderConfig)
  (_client : option Client) (prompt : string) (context : option Context)
  (conversation_history : option History) : Exn + string :=
  match _client with
  | None => inl (mkExn ProviderException "Gemini client not initialized")
  | Some client =>
      let full_prompt := _build_prompt prompt context conversation_history in
      match generate_content client full_prompt
              (temperature config) (max_tokens config) with
      | inr text => inr text
      | inl e => inl (mkExn ProviderException
                        ("Gemini generation failed: " +++ exn_str e))
      end
  end.

Definition get_provider_name : string := "gemini".

(** The instance as seen through the [AIProvider] interface. *)
Definition instance (config : AIProviderConfig) (_client : option Client)
  : AIProvider :=
  mkAIProvider "GeminiProvider" config
    (generate_response config _client) get_provider_name.

(** [GeminiProvider._initialize_client] *)
Definition _initialize_client (config : AIProviderConfig) : M Client :=
  emit (ClientInit "GeminiProvider" config) ;;;
  match genai_load (api_key config) (model config) with
  | inr client => ret client
  | inl e =>
      if is_ImportError e
      then raise (mkExn ProviderException
                    ("google-generativeai package not installed. "
                     +++ "Install it with: pip install google-generativeai"))
      else raise (mkExn ProviderException
                    ("Failed to initialize Gemini client: " +++ exn_str e))
  end.

(** [GeminiProvider.__init__] *)
Definition __init__ (config : AIProviderConfig) : M AIProvider :=
  AIProviderInit.__init__ "GeminiProvider" config ;;;
  client <- _initialize_client config ;;
  ret (instance config (Some client)).

End Interp.
End GeminiProvider.

(* ================================================================== *)
(** ** providers/gpt_provider.py                                        *)
(* ================================================================== *)
Module GPTProvider.

(** What the provider uses of an [AsyncOpenAI] client: the awaited
    [chat.completions.create(model, messages, temperature, max_tokens)]
    followed by [.choices[0].message.content], or the exception raised. *)
Record Client : Type := mkClient {
  chat_completions_create :
    PyVal -> list Message -> PyVal -> PyVal -> Exn + string
}.

Section Interp.
Variable py_str : PyVal -> string.
(** The body of the [try] in [_initialize_client]: import the package and
    build [AsyncOpenAI(api_key=...)]. *)
Variable openai_load : PyVal -> Exn + Client.

Definition context_line (kv : string * PyVal) : string :=
  fst kv +++ ": " +++ py_str (snd kv).

Definition system_prompt : string :=
  "You are Aura, an intelligent financial assistant.".

(** A [{"role": r, "content": c}] literal. *)
Definition message (role content : string) : Message :=
  [("role", role); ("content", content)].

(** The message appended for one entry of the history. *)
Definition history_message (msg : Message) : Message :=
  message (dict_get_default msg "role" "user")
          (dict_get_default msg "content" EmptyString).

(** [GPTProvider._build_messages] *)
Definition _build_messages (prompt : string) (context : option Context)
  (conversation_history : option History) : list Message :=
  let messages : list Message := [] in
  let system_content := system_prompt in
  let system_content :=
    if nonempty_opt context then
      let context_str := join nl (map context_line (items_of context)) in
      system_content +++ (nl +++ nl +++ "Context:" +++ nl +++ context_str)
    else system_content in
  let messages := messages ++ [message "system" system_content] in
  let messages :=
    if nonempty_opt conversation_history then
      fold_left (fun messages msg => messages ++ [history_message msg])
                (items_of conversation_history) messages
    else messages in
  let messages := messages ++ [message "user" prompt] in
  messages.

(** [GPTProvider.generate_response] *)
Definition generate_response (config : AIProviderConfig)
  (_client : option Client) (prompt : string) (context : option Context)
  (conversation_history : option History) : Exn + string :=
  match _client with
  | None => inl (mkExn ProviderException "OpenAI client not initialized")
  | Some client =>
      let messages := _build_messages prompt context conversation_history in
      match chat_completions_create client (model config) messages
              (temperature config) (max_tokens config) with
      | inr text => inr text
      | inl e => inl (mkExn ProviderException
                        ("GPT generation failed: " +++ exn_str e))
      end
  end.

Definition get_provider_name : string := "gpt".

Definition instance (config : AIProviderConfig) (_client : option Client)
  : AIProvider :=
  mkAIProvider "GPTProvider" config
    (generate_response config _client) get_provider_name.

(** [GPTProvider._initialize_client] *)
Definition _initialize_client (config : AIProviderConfig) : M Client :=
  emit (ClientInit "GPTProvider" config) ;;;
  match openai_load (api_key config) with
  | inr client => ret client
  | inl e =>
      if is_ImportError e
      then raise (mkExn ProviderException
                    ("openai package not installed. "
                     +++ "Install it with: pip install openai"))
      else raise (mkExn ProviderException
                    ("Failed to initialize OpenAI client: " +++ exn_str e))
  end.

(** [GPTProvider.__init__] *)
Definition __init__ (config : AIProviderConfig) : M AIProvider :=
  AIProviderInit.__init__ "GPTProvider" config ;;;
  client <- _initialize_client config ;;
  ret (instance config (Some client)).

End Interp.
End GPTProvider.

(* ================================================================== *)
(** ** core/processor.py                                                *)
(* ================================================================== *)
Module RequestProcessor.

(** The attributes of a [RequestProcessor] that its methods read or
    write.  The [InteractionLogger] attribute is the trace. *)
Record t : Type := mk {
  config : Config.t;
  providers : list (string * AIProvider);
  default_provider : option AIProvider
}.

Section Interp.
Variable py_str : PyVal -> string.
Variable py_message : PyOp -> PyVal -> string.
Variable genai_load : PyVal -> PyVal -> Exn + GeminiProvider.Client.
Variable openai_load : PyVal -> Exn + GPTProvider.Client.

Let log_info := Logger.log_info.
Let log_warning := Logger.log_warning.
Let log_error := Logger.log_error py_message.
Let log_interaction := Logger.log_interaction py_message.

(** [v.get(k, default)] on a configuration value: [AttributeError] when
    [v] is not a dict. *)
Definition method_get (v : PyVal) (k : string) (default : PyVal) : M PyVal :=
  match v with
  | VDict d => ret (dict_get_default d k default)
  | _ => raise (mkExn AttributeError (py_message OpAttrGet v))
  end.

(** [self.providers.get(key)]: the key is hashed first. *)
Definition registry_get (providers : list (string * AIProvider)) (key : PyVal)
  : M (option AIProvider) :=
  match key with
  | VStr name => ret (dict_get providers name)
  | _ => if hashable key then ret None
         else raise (mkExn TypeError (py_message OpHash key))
  end.

(** One [try ... except Exception] block of [_initialize_providers]. *)
Definition initialize_one (config : Config.t)
  (section key label default_model : string)
  (construct : AIProviderConfig -> M AIProvider)
  (providers : list (string * AIProvider)) : M (list (string * AIProvider)) :=
  try_except
    (provider_section <- lift (Config.get_provider_config config section) ;;
     api_key <- method_get provider_section "api_key" VNone ;;
     if truthy api_key then
       model <- method_get provider_section "model" (VStr default_model) ;;
       temperature <- method_get provider_section "temperature"
                        default_temperature ;;
       max_tokens <- method_get provider_section "max_tokens" VNone ;;
       let provider_config :=
         new_AIProviderConfig api_key model temperature max_tokens VNone in
       provider <- construct provider_config ;;
       log_info (label +++ " provider initialized successfully") ;;;
       ret (dict_set providers key provider)
     else ret providers)
    (fun e =>
       log_warning ("Failed to initialize " +++ label +++ " provider: "
                    +++ exn_str e) ;;;
       ret providers).

(** [RequestProcessor._initialize_providers], from the empty registry. *)
Definition _initialize_providers (config : Config.t)
  : M (list (string * AIProvider)) :=
  providers <- initialize_one config "gemini" "gemini" "Gemini" "gemini-pro"
                 (GeminiProvider.__init__ py_str genai_load) [] ;;
  initialize_one config "openai" "gpt" "GPT" "gpt-3.5-turbo"
    (GPTProvider.__init__ py_str openai_load) providers.

(** [next(iter(self.providers.values()), None)] *)
Definition first_provider (providers : list (string * AIProvider))
  : option AIProvider :=
  hd_error (dict_values providers).

(** [RequestProcessor.__init__], once the logger exists (its
    construction touches the file system and is outside the model). *)
Definition __init__ (config : Config.t) : M t :=
  providers <- _initialize_providers config ;;
  let default_provider_name :=
    Config.get config "default_provider" (VStr "gemini") in
  default_provider <- registry_get providers default_provider_name ;;
  default_provider <-
    match default_provider with
    | Some _ => ret default_provider
    | None =>
        log_warning ("Default provider '" +++ py_str default_provider_name
                     +++ "' not available. Using first available provider.") ;;;
        ret (first_provider providers)
    end ;;
  match default_provider with
  | Some _ => ret tt
  | None =>
      log_error "No AI providers available" "initialization_error"
        (VDict [("configured_providers",
                 VList (map VStr (dict_keys providers)))])
  end ;;;
  ret (mk config providers default_provider).

(** [bool(provider_name)] for [provider_name: Optional[str]]. *)
Definition name_given (provider_name : option string) : bool :=
  match provider_name with
  | Some s => str_nonempty s
  | None => false
  end.

(** [RequestProcessor._select_provider] *)
Definition _select_provider (self : t) (provider_name : option string)
  : M (option AIProvider) :=
  match provider_name with
  | Some name =>
      if str_nonempty name then
        provider <- registry_get (providers self) (VStr name) ;;
        match provider with
        | None =>
            log_warning ("Requested provider '" +++ name
                         +++ "' not available. Falling back to default.") ;;;
            ret (default_provider self)
        | Some _ => ret provider
        end
      else ret (default_provider self)
  | None => ret (default_provider self)
  end.

(** The text of a request that passed validation. *)
Definition str_value (v : PyVal) : string :=
  match v with VStr s => s | _ => EmptyString end.

(** [context] as the value stored in the metadata. *)
Definition context_value (context : option Context) : PyVal :=
  match context with Some c => VDict c | None => VNone end.

(** The awaited [provider.generate_response(...)] at the call site. *)
Definition call_generate (provider : AIProvider) (prompt : string)
  (context : option Context) (history : option History) : M string :=
  emit (Generate provider prompt context history) ;;;
  lift (generate_response provider prompt context history).

(** The four envelopes [process_request] returns. *)
Definition no_provider_envelope (request : PyVal) : PyVal :=
  VDict [("success", VBool false);
         ("error", VStr "No AI provider available");
         ("request", request)].

Definition success_envelope (response provider : string) (request : PyVal)
  : PyVal :=
  VDict [("success", VBool true);
         ("response", VStr response);
         ("provider", VStr provider);
         ("request", request)].

Definition failure_envelope (error provider : string) (request : PyVal)
  : PyVal :=
  VDict [("success", VBool false);
         ("error", VStr error);
         ("provider", VStr provider);
         ("request", request)].

(** [RequestProcessor.process_request] *)
Definition process_request (self : t) (request : PyVal)
  (context : option Context) (conversation_history : option History)
  (provider_name : option string) : M PyVal :=
  if negb (truthy request) || negb (isinstance_str request) then
    raise (mkExn ValidationException "Request must be a non-empty string")
  else
    provider <- _select_provider self provider_name ;;
    match provider with
    | None =>
        let error_msg := "No AI provider available" in
        log_error error_msg "provider_error" VNone ;;;
        ret (no_provider_envelope request)
    | Some provider =>
        let name := get_provider_name provider in
        let error_details :=
          VDict [("provider", VStr name); ("request", request)] in
        try_except
          (log_info ("Processing request with " +++ name +++ " provider") ;;;
           response <- call_generate provider (str_value request) context
                         conversation_history ;;
           log_interaction request response name
             (VDict [("context", context_value context);
                     ("has_history",
                      VBool (nonempty_opt conversation_history))]) ;;;
           ret (success_envelope response name request))
          (fun e =>
             if is_ProviderException e then
               log_error (exn_str e) "provider_error" error_details ;;;
               ret (failure_envelope (exn_str e) name request)
             else
               log_error (exn_str e) "unexpected_error" error_details ;;;
               ret (failure_envelope ("Unexpected error: " +++ exn_str e)
                      name request))
    end.

(** [RequestProcessor.get_available_providers] *)
Definition get_available_providers (self : t) : list string :=
  dict_keys (providers self).

(** [RequestProcessor.switch_default_provider]: the returned boolean and
    the processor afterwards. *)
Definition switch_default_provider (self : t) (provider_name : string)
  : M (bool * t) :=
  provider <- registry_get (providers self) (VStr provider_name) ;;
  match provider with
  | Some p =>
      log_info ("Default provider switched to: " +++ provider_name) ;;;
      ret (true, mk (config self) (providers self) (Some p))
  | None =>
      log_warning ("Cannot switch to unavailable provider: "
                   +++ provider_name) ;;;
      ret (false, self)
  end.

(** The processors a caller can have: built by [__init__], then any
    number of [switch_default_provider] calls.  ([process_request] leaves
    the attributes as they are.) *)
Inductive reachable : t -> Prop :=
| reach_init config tr self :
    __init__ config = (tr, inr self) -> reachable self
| reach_switch self name tr b self' :
    reachable self ->
    switch_default_provider self name = (tr, inr (b, self')) ->
    reachable self'.

(** Every registered provider reports the name it is registered under. *)
Definition names_match (providers : list (string * AIProvider)) : Prop :=
  forall name p, dict_get providers name = Some p -> get_provider_name p = name.

(** The names match and the default provider, if any, is a registered
    one. *)
Definition registry_consistent (self : t) : Prop :=
  names_match (providers self) /\
  (forall p, default_provider self = Some p ->
             exists name, dict_get (providers self) name = Some p).

End Interp.
End RequestProcessor.

(* ================================================================== *)
(** ** Properties the statements below are written with                 *)
(* ================================================================== *)
Module Props.

(** The strings [segs] occur in [s] one after the other, without
    overlap, in the order of the list. *)
Fixpoint occurs_in_order (segs : list string) (s : string) : Prop :=
  match segs with
  | [] => True
  | seg :: rest =>
      exists pre post, s = pre +++ seg +++ post /\ occurs_in_order rest post
  end.

(** [s] ends with [suffix]. *)
Definition ends_with (s suffix : string) : Prop :=
  exists pre, s = pre +++ suffix.

(** [env.get(k)] on a returned envelope. *)
Definition envelope_field (envelope : PyVal) (k : string) : option PyVal :=
  match envelope with
  | VDict d => dict_get d k
  | _ => None
  end.

(** The value stored at a path: the chain of plain item accesses
    [cfg[k1][k2]...[kn]], [None] when a segment is absent or the access is
    made on a value that is not a mapping. *)
Fixpoint stored_at (value : PyVal) (keys : list string) : option PyVal :=
  match keys with
  | [] => Some value
  | k :: ks =>
      match value with
      | VDict d =>
          match dict_get d k with
          | None => None
          | Some v' => stored_at v' ks
          end
      | _ => None
      end
  end.

(** Whether [Config.set] finds a mapping at every step: each segment
    before the last is absent or holds a dict, down to the object the
    last segment is assigned in. *)
Fixpoint settable (value : PyVal) (keys : list string) : bool :=
  match keys with
  | [] => false
  | [k] => match value with VDict _ => true | _ => false end
  | k :: ks =>
      match value with
      | VDict d =>
          match dict_get d k with
          | None => true
          | Some child => settable child ks
          end
      | _ => false
      end
  end.

End Props.
Export Props.

(* ================================================================== *)
(** ** A concrete run-time environment and concrete processors          *)
(* ================================================================== *)
Module Demo.

(** [str(v)], exact on [None], booleans and strings. *)
Definition demo_str (v : PyVal) : string :=
  match v with
  | VStr s => s
  | VNone => "None"
  | VBool true => "True"
  | VBool false => "False"
  | _ => "<" +++ type_name v +++ ">"
  end.

(** CPython's exception texts. *)
Definition demo_message (op : PyOp) (v : PyVal) : string :=
  match op with
  | OpJsonEncode => "Object of type " +++ type_name v +++ " is not JSON serializable"
  | OpHash => "unhashable type: '" +++ type_name v +++ "'"
  | OpAttrGet => "'" +++ type_name v +++ "' object has no attribute 'get'"
  | OpItem => "'" +++ type_name v +++ "' object does not support item assignment"
  | OpContains => "argument of type '" +++ type_name v +++ "' is not iterable"
  | OpIndexLast => "list index out of range"
  end.

(** Both SDKs installed; the backends answer with fixed texts. *)
Definition genai_ok (_ _ : PyVal) : Exn + GeminiProvider.Client :=
  inr (GeminiProvider.mkClient (fun _ _ _ => inr "gemini says hi")).

Definition openai_ok (_ : PyVal) : Exn + GPTProvider.Client :=
  inr (GPTProvider.mkClient (fun _ _ _ _ => inr "gpt says hi")).

Definition provider_section (key model_name : PyVal) : PyVal :=
  VDict [("api_key", key); ("model", model_name)].

(** What [_load_from_env] stores when both API keys are set. *)
Definition config_both : Config.t :=
  Config.mk (VDict [
    ("gemini", provider_section (VStr "g-key") (VStr "gemini-pro"));
    ("openai", provider_section (VStr "o-key") (VStr "gpt-3.5-turbo"));
    ("default_provider", VStr "gemini");
    ("log_level", VStr "INFO");
    ("log_path", VStr "logs/interactions.log")]).

(** What [_load_from_env] stores when no API key is set. *)
Definition config_no_keys : Config.t :=
  Config.mk (VDict [
    ("gemini", provider_section VNone (VStr "gemini-pro"));
    ("openai", provider_section VNone (VStr "gpt-3.5-turbo"));
    ("default_provider", VStr "gemini");
    ("log_level", VStr "INFO");
    ("log_path", VStr "logs/interactions.log")]).

Definition new_processor (config : Config.t) : M RequestProcessor.t :=
  RequestProcessor.__init__ demo_str demo_message genai_ok openai_ok config.

Definition config_of_gemini : AIProviderConfig :=
  new_AIProviderConfig (VStr "g-key") (VStr "gemini-pro")
    default_temperature VNone VNone.

Definition config_of_gpt : AIProviderConfig :=
  new_AIProviderConfig (VStr "o-key") (VStr "gpt-3.5-turbo")
    default_temperature VNone VNone.

Definition gemini : AIProvider :=
  GeminiProvider.instance demo_str config_of_gemini
    (Some (GeminiProvider.mkClient (fun _ _ _ => inr "gemini says hi"))).

Definition gpt : AIProvider :=
  GPTProvider.instance demo_str config_of_gpt
    (Some (GPTProvider.mkClient (fun _ _ _ _ => inr "gpt says hi"))).

(** The processor [__init__] builds from [config_both]. *)
Definition processor_both : RequestProcessor.t :=
  RequestProcessor.mk config_both [("gemini", gemini); ("gpt", gpt)]
    (Some gemini).

(** The processor [__init__] builds from [config_no_keys]. *)
Definition processor_empty : RequestProcessor.t :=
  RequestProcessor.mk config_no_keys [] None.

Definition process (self : RequestProcessor.t) (request : PyVal)
  (context : option Context) (history : option History)
  (provider_name : option string) : M PyVal :=
  RequestProcessor.process_request demo_message self request context history
    provider_name.

(** A context with a value [json] cannot encode. *)
Definition decimal_context : option Context :=
  Some [("balance", VObj "Decimal")].

Definition blank_request : PyVal := VStr "   ".

End Demo.

(* ================================================================== *)
(** ** utils/config.py: the store read from the environment             *)
(* ================================================================== *)
Module ConfigLoading.

Section Interp.
(** [os.environ] *)
Variable getenv : string -> option string.

(** [os.getenv(name)] *)
Definition os_getenv (name : string) : PyVal :=
  match getenv name with Some s => VStr s | None => VNone end.

(** [os.getenv(name, default)] *)
Definition os_getenv_default (name default : string) : PyVal :=
  match getenv name with Some s => VStr s | None => VStr default end.

(** [Config._load_from_env] *)
Definition _load_from_env : Config.t :=
  Config.mk (VDict [
    ("gemini", VDict [
       ("api_key", os_getenv "GEMINI_API_KEY");
       ("model", os_getenv_default "GEMINI_MODEL" "gemini-pro")]);
    ("openai", VDict [
       ("api_key", os_getenv "OPENAI_API_KEY");
       ("model", os_getenv_default "OPENAI_MODEL" "gpt-3.5-turbo")]);
    ("default_provider", os_getenv_default "DEFAULT_AI_PROVIDER" "gemini");
    ("log_level", os_getenv_default "LOG_LEVEL" "INFO");
    ("log_path", os_getenv_default "LOG_PATH" "logs/interactions.log")]).

End Interp.
End ConfigLoading.

(* ================================================================== *)
(** ** Observations on traces, paths and providers                      *)
(* ================================================================== *)
Module Observations.

(** The classes whose SDK client construction a trace records. *)
Fixpoint client_inits (tr : Trace) : list string :=
  match tr with
  | [] => []
  | ClientInit cls _ :: r => cls :: client_inits r
  | _ :: r => client_inits r
  end.

(** The structured interaction records of a trace. *)
Fixpoint interactions (tr : Trace) : list PyVal :=
  match tr with
  | [] => []
  | LogInteraction data :: r => data :: interactions r
  | _ :: r => interactions r
  end.

(** The structured error records of a trace. *)
Fixpoint error_records (tr : Trace) : list PyVal :=
  match tr with
  | [] => []
  | LogError data :: r => data :: error_records r
  | _ :: r => error_records r
  end.

(** [s] starts with [prefix]. *)
Definition starts_with (s prefix : string) : Prop :=
  exists rest, s = prefix +++ rest.

(** [p] is an instance of one of the two provider classes of the
    package, with its client in place. *)
Definition builtin_provider (py_str : PyVal -> string) (p : AIProvider) : Prop :=
  (exists config client,
      p = GeminiProvider.instance py_str config (Some client)) \/
  (exists config client,
      p = GPTProvider.instance py_str config (Some client)).

(** The registry holds, in this order, the Gemini provider if any and
    the GPT provider if any. *)
Definition registry_shape (providers : list (string * AIProvider)) : Prop :=
  providers = [] \/
  (exists g, providers = [("gemini", g)]) \/
  (exists q, providers = [("gpt", q)]) \/
  (exists g q, providers = [("gemini", g); ("gpt", q)]).

(** What one block of [_initialize_providers] reads from the
    configuration before it constructs a provider: the value under the
    backend's section, its credential, and its model with the block's
    default. *)
Definition section_of (config : Config.t) (section : string) : PyVal :=
  Config.get config section (VDict []).

Definition credential_of (section_value : PyVal) : PyVal :=
  match section_value with
  | VDict d => dict_get_default d "api_key" VNone
  | _ => VNone
  end.

Definition model_of (section_value : PyVal) (default_model : string) : PyVal :=
  match section_value with
  | VDict d => dict_get_default d "model" (VStr default_model)
  | _ => VNone
  end.

Definition is_dict (v : PyVal) : bool :=
  match v with VDict _ => true | _ => false end.

(** The [AIProviderConfig] the block builds from the section. *)
Definition provider_config_of (section_value : PyVal) (default_model : string)
  : AIProviderConfig :=
  match section_value with
  | VDict d =>
      new_AIProviderConfig
        (dict_get_default d "api_key" VNone)
        (dict_get_default d "model" (VStr default_model))
        (dict_get_default d "temperature" default_temperature)
        (dict_get_default d "max_tokens" VNone)
        VNone
  | _ => new_AIProviderConfig VNone VNone default_temperature VNone VNone
  end.

(** The block goes as far as constructing a provider. *)
Definition credential_configured (config : Config.t) (section : string)
  : bool :=
  let v := section_of config section in
  is_dict v && truthy (credential_of v).

End Observations.
Export Observations.

(* ================================================================== *)
(** ** Concrete environments                                            *)
(* ================================================================== *)
Module DemoEnv.

(** Only [GEMINI_API_KEY] is set. *)
Definition env_gemini_only (name : string) : option string :=
  if String.eqb name "GEMINI_API_KEY" then Some "g-key" else None.

(** The OpenAI package is not installed. *)
Definition openai_missing (_ : PyVal) : Exn + GPTProvider.Client :=
  inl (mkExn ImportError "No module named 'openai'").

(** A configuration whose default provider is a JSON list. *)
Definition config_list_default : Config.t :=
  Config.mk (VDict [("default_provider", VList [VStr "gemini"])]).

(** Both API keys, and a default provider that names no backend. *)
Definition config_unknown_default : Config.t :=
  Config.mk (VDict [
    ("gemini", Demo.provider_section (VStr "g-key") (VStr "gemini-pro"));
    ("openai", Demo.provider_section (VStr "o-key") (VStr "gpt-3.5-turbo"));
    ("default_provider", VStr "claude")]).


(** The processor of [Demo.config_both] after [switch_default_provider]
    to the GPT provider. *)
Definition processor_switched : RequestProcessor.t :=
  RequestProcessor.mk Demo.config_both
    [("gemini", Demo.gemini); ("gpt", Demo.gpt)] (Some Demo.gpt).

End DemoEnv.

(* ================================================================== *)
(** * Lemmas                                                            *)
(* ================================================================== *)

Example demo_init_both :
  snd (Demo.new_processor Demo.config_both) = inr Demo.processor_both.
Proof. reflexivity. Qed.

Example demo_init_empty :
  snd (Demo.new_processor Demo.config_no_keys) = inr Demo.processor_empty.
Proof. reflexivity. Qed.

(* ------------------------------------------------------------------ *)
(** ** Dicts and strings                                                *)
(* ------------------------------------------------------------------ *)
Section DictFacts.
Context {V : Type}.
Implicit Types (d : list (string * V)) (k : string) (v : V).

Lemma dict_get_set_same d k v : dict_get (dict_set d k v) k = Some v.
Proof.
  induction d as [|[k' v'] r IH]; simpl.
  - now rewrite String.eqb_refl.
  - destruct (String.eqb k k') eqn:E; simpl; rewrite E; auto.
Qed.

Lemma dict_get_set_other d k k' v :
  k' <> k -> dict_get (dict_set d k v) k' = dict_get d k'.
Proof.
  intros Hne. induction d as [|[k0 v0] r IH]; simpl.
  - destruct (String.eqb k' k) eqn:E; auto.
    apply String.eqb_eq in E. contradiction.
  - destruct (String.eqb k k0) eqn:E; simpl.
    + apply String.eqb_eq in E. subst k0.
      destruct (String.eqb k' k) eqn:E'; auto.
      apply String.eqb_eq in E'. contradiction.
    + now rewrite IH.
Qed.

Lemma dict_get_nil k : dict_get (@nil (string * V)) k = None.
Proof. reflexivity. Qed.

End DictFacts.

Lemma split_dot_not_nil s : split_dot s <> [].
Proof.
  destruct s as [|c rest]; simpl; [discriminate|].
  destruct (Ascii.eqb c dot); [discriminate|].
  destruct (split_dot rest); discriminate.
Qed.

(** Assigning the value a key already has changes nothing. *)
Lemma dict_set_same_value {V : Type} (d : list (string * V)) k v :
  dict_get d k = Some v -> dict_set d k v = d.
Proof.
  induction d as [|[k' v'] r IH]; simpl; [discriminate|].
  destruct (String.eqb k k') eqn:E.
  - intros H. now inversion H.
  - intros H. now rewrite IH.
Qed.

(* ------------------------------------------------------------------ *)
(** ** Config.get and Config.set                                        *)
(* ------------------------------------------------------------------ *)
Section ConfigFacts.
Variable py_message : PyOp -> PyVal -> string.

(** One turn of the loop of [set] when more than one segment is left. *)
Lemma set_loop_step k k2 ks config value :
  Config.set_loop py_message config (k :: k2 :: ks) value =
  match config with
  | VDict d =>
      let d1 := if dict_contains d k then d else dict_set d k (VDict []) in
      let child := dict_get_default d1 k VNone in
      let '(child', exn) :=
        Config.set_loop py_message child (k2 :: ks) value in
      (VDict (dict_set d1 k child'), exn)
  | _ => (config,
          Some (mkExn TypeError
                  (py_message (Config.loop_failure config) config)))
  end.
Proof. destruct config; reflexivity. Qed.

Lemma settable_step k k2 ks config :
  settable config (k :: k2 :: ks) =
  match config with
  | VDict d =>
      match dict_get d k with
      | None => true
      | Some child => settable child (k2 :: ks)
      end
  | _ => false
  end.
Proof. destruct config; reflexivity. Qed.

(** [get] decides by what plain item access would find. *)
Lemma get_loop_stored_at keys : forall value default,
  keys <> [] ->
  Config.get_loop value keys default =
  match stored_at value keys with
  | Some v => if is_None v then default else v
  | None => default
  end.
Proof.
  induction keys as [|k ks IH]; intros value default Hne; [contradiction|].
  simpl. destruct value; try reflexivity.
  destruct (dict_get d k) as [v'|]; [|reflexivity].
  destruct ks as [|k2 ks'].
  - simpl. destruct (is_None v'); reflexivity.
  - destruct (is_None v') eqn:E.
    + destruct v'; try discriminate. reflexivity.
    + apply IH. discriminate.
Qed.

(** After a [set] that did not raise, the value is stored at the path. *)
Lemma set_loop_stored_at keys : forall config value config',
  Config.set_loop py_message config keys value = (config', None) ->
  stored_at config' keys = Some value.
Proof.
  induction keys as [|k ks IH]; intros config value config' H.
  - discriminate.
  - destruct ks as [|k2 ks'].
    + simpl in H. destruct config; inversion H; subst. simpl.
      now rewrite dict_get_set_same.
    + rewrite set_loop_step in H.
      destruct config; try discriminate. cbv zeta in H.
      destruct (Config.set_loop py_message _ (k2 :: ks') value)
        as [child' exn] eqn:E.
      inversion H; subst.
      cbn [stored_at]. rewrite dict_get_set_same.
      eapply IH. exact E.
Qed.

(** [set] on an empty dict creates every level. *)
Lemma set_loop_fresh keys : forall value,
  keys <> [] -> snd (Config.set_loop py_message (VDict []) keys value) = None.
Proof.
  induction keys as [|k ks IH]; intros value Hne; [contradiction|].
  destruct ks as [|k2 ks']; [reflexivity|].
  rewrite set_loop_step. cbv zeta.
  unfold dict_contains, dict_get_default.
  rewrite dict_get_nil, dict_get_set_same.
  specialize (IH value ltac:(discriminate)).
  destruct (Config.set_loop py_message (VDict []) (k2 :: ks') value)
    as [child' exn].
  exact IH.
Qed.

(** [set] raises exactly when a step finds something that is not a
    mapping. *)
Lemma set_loop_ok_iff keys : forall config value,
  snd (Config.set_loop py_message config keys value) = None
  <-> settable config keys = true.
Proof.
  induction keys as [|k ks IH]; intros config value.
  - simpl. split; discriminate.
  - destruct ks as [|k2 ks'].
    + simpl. destruct config; simpl; split; (discriminate || reflexivity).
    + rewrite set_loop_step, settable_step.
      destruct config; try (simpl; split; discriminate).
      cbv zeta. unfold dict_contains, dict_get_default.
      destruct (dict_get d k) as [child|] eqn:G.
      * rewrite G. specialize (IH child value).
        destruct (Config.set_loop py_message child (k2 :: ks') value)
          as [child' exn].
        exact IH.
      * rewrite dict_get_set_same.
        pose proof (set_loop_fresh (k2 :: ks') value ltac:(discriminate)) as F.
        destruct (Config.set_loop py_message (VDict []) (k2 :: ks') value)
          as [child' exn].
        simpl in *. split; auto.
Qed.

(** A [set] that raises met an existing value that is not a mapping; up
    to there it only walked through existing mappings. *)
Lemma set_loop_failure_atomic keys : forall config value config' e,
  keys <> [] ->
  Config.set_loop py_message config keys value = (config', Some e) ->
  config' = config /\ exn_class e = TypeError.
Proof.
  induction keys as [|k ks IH]; intros config value config' e Hne H.
  - contradiction.
  - destruct ks as [|k2 ks2].
    + cbn in H. destruct config; inversion H; subst; split; reflexivity.
    + rewrite set_loop_step in H.
      destruct config; try (inversion H; subst; split; reflexivity).
      cbv zeta in H. unfold dict_contains, dict_get_default in H.
      destruct (dict_get d k) as [child|] eqn:G.
      * rewrite G in H.
        destruct (Config.set_loop py_message child (k2 :: ks2) value)
          as [child' exn] eqn:E.
        inversion H; subst.
        destruct (IH child value child' e ltac:(discriminate) E) as (-> & Hc).
        split; [|exact Hc]. now rewrite dict_set_same_value.
      * rewrite dict_get_set_same in H.
        pose proof (set_loop_fresh (k2 :: ks2) value ltac:(discriminate)) as F.
        destruct (Config.set_loop py_message (VDict []) (k2 :: ks2) value)
          as [child' exn].
        cbn in F. subst exn. inversion H.
Qed.

End ConfigFacts.

(** C7, as the code has it.  [config.set(key, value)] returns exactly
    when every segment before the last is absent (it then creates the
    mapping) or holds a mapping, down to the mapping the last segment is
    assigned in; otherwise it raises [TypeError].  After a [set] that
    returned, [config.get(key)] is [value], and [get(key, default)] is
    [value] too unless [value] is [None].  [get(key, default)] is
    [default] whenever item access along the key meets an absent segment
    or a value that is not a mapping.  On an empty store
    [set("a.b.c", 42)] then [get("a.b.c")] gives 42 and
    [get("missing.key", "D")] gives "D". *)
Theorem config_set_get_round_trip :
  (forall py_message c key value c',
      Config.set py_message c key value = (c', None) ->
      Config.get c' key VNone = value /\
      (forall default, is_None value = false ->
                       Config.get c' key default = value)) /\
  (forall py_message c key value,
      settable (Config._config c) (split_dot key) = true <->
      snd (Config.set py_message c key value) = None) /\
  (forall py_message c key value c' e,
      Config.set py_message c key value = (c', Some e) ->
      exn_class e = TypeError) /\
  (forall c key default,
      stored_at (Config._config c) (split_dot key) = None ->
      Config.get c key default = default) /\
  (forall py_message,
      let c' := fst (Config.set py_message (Config.mk (VDict [])) "a.b.c"
                       (VInt 42)) in
      snd (Config.set py_message (Config.mk (VDict [])) "a.b.c" (VInt 42))
        = None /\
      Config.get c' "a.b.c" VNone = VInt 42) /\
  Config.get (Config.mk (VDict [])) "missing.key" (VStr "D") = VStr "D".
Proof.
  repeat split.
  - unfold Config.set, Config.get in *.
    destruct (Config.set_loop py_message (Config._config c) (split_dot key)
                value) as [cfg' exn] eqn:E.
    inversion H; subst. simpl.
    rewrite get_loop_stored_at by apply split_dot_not_nil.
    rewrite (set_loop_stored_at _ _ _ _ _ E).
    destruct value; reflexivity.
  - intros default Hv. unfold Config.set, Config.get in *.
    destruct (Config.set_loop py_message (Config._config c) (split_dot key)
                value) as [cfg' exn] eqn:E.
    inversion H; subst. simpl.
    rewrite get_loop_stored_at by apply split_dot_not_nil.
    rewrite (set_loop_stored_at _ _ _ _ _ E).
    now rewrite Hv.
  - intros Hs. unfold Config.set.
    apply (set_loop_ok_iff py_message _ _ value) in Hs.
    destruct (Config.set_loop py_message (Config._config c) (split_dot key)
                value) as [cfg' exn].
    exact Hs.
  - intros Hs. unfold Config.set in Hs.
    apply (set_loop_ok_iff py_message _ _ value).
    destruct (Config.set_loop py_message (Config._config c) (split_dot key)
                value) as [cfg' exn].
    exact Hs.
  - intros py_message c key value c' e Hs. unfold Config.set in Hs.
    destruct (Config.set_loop py_message (Config._config c) (split_dot key)
                value) as [cfg' exn] eqn:E.
    inversion Hs; subst.
    apply (set_loop_failure_atomic py_message _ _ _ _ _
             (split_dot_not_nil key) E).
  - intros c key default Hs. unfold Config.get.
    rewrite get_loop_stored_at by apply split_dot_not_nil.
    now rewrite Hs.
Qed.

(** The round trip of C7 on the store [_load_from_env] builds. *)
Lemma config_set_get_round_trip_witness :
  Config.get
    (fst (Config.set Demo.demo_message Demo.config_both "nested.deep.setting"
            (VInt 42)))
    "nested.deep.setting" VNone = VInt 42.
Proof.
  refine (proj1 (proj1 config_set_get_round_trip Demo.demo_message
                   Demo.config_both "nested.deep.setting" (VInt 42) _ _)).
  reflexivity.
Defined.

(** C7 as stated fails below a value that is not a mapping: on the
    environment store [log_level] holds a string, [set] of
    [log_level.verbose] raises [TypeError], and [get] of that key does
    not give the value afterwards. *)
Lemma config_set_below_a_string_raises :
  (exists e,
      snd (Config.set Demo.demo_message Demo.config_both "log_level.verbose"
             (VBool true)) = Some e /\
      exn_class e = TypeError) /\
  Config.get
    (fst (Config.set Demo.demo_message Demo.config_both "log_level.verbose"
            (VBool true)))
    "log_level.verbose" VNone
  = VNone.
Proof. split; [eexists; split; reflexivity | reflexivity]. Qed.

(** C10.  A stored [None] reads as a missing key.  If item access along
    the key finds [None], or finds nothing, [get(key, default)] is
    [default]; so after [set(key, None)] the value read back with a
    default other than [None] is that default and not the [None] that was
    written. *)
Theorem config_none_reads_as_missing :
  forall py_message c key default,
    (stored_at (Config._config c) (split_dot key) = Some VNone ->
     Config.get c key default = default) /\
    (stored_at (Config._config c) (split_dot key) = None ->
     Config.get c key default = default) /\
    (forall c', Config.set py_message c key VNone = (c', None) ->
                Config.get c' key default = default /\
                (default <> VNone -> Config.get c' key default <> VNone)).
Proof.
  intros py_message c key default. unfold Config.get, Config.set.
  repeat split.
  - intros Hs. rewrite get_loop_stored_at by apply split_dot_not_nil.
    now rewrite Hs.
  - intros Hs. rewrite get_loop_stored_at by apply split_dot_not_nil.
    now rewrite Hs.
  - destruct (Config.set_loop py_message (Config._config c) (split_dot key)
                VNone) as [cfg' exn] eqn:E.
    inversion H; subst. simpl.
    rewrite get_loop_stored_at by apply split_dot_not_nil.
    now rewrite (set_loop_stored_at _ _ _ _ _ E).
  - destruct (Config.set_loop py_message (Config._config c) (split_dot key)
                VNone) as [cfg' exn] eqn:E.
    inversion H; subst. simpl. intros Hd.
    rewrite get_loop_stored_at by apply split_dot_not_nil.
    now rewrite (set_loop_stored_at _ _ _ _ _ E).
Qed.

(** C10 on the environment store: [gemini.api_key] holds [None] when the
    variable is unset, and after [set("x.y", None)] the default comes
    back. *)
Lemma config_none_reads_as_missing_witness :
  Config.get Demo.config_no_keys "gemini.api_key" (VStr "D") = VStr "D" /\
  Config.get
    (fst (Config.set Demo.demo_message Demo.config_no_keys "x.y" VNone))
    "x.y" (VStr "D") = VStr "D".
Proof.
  split.
  - apply (proj1 (config_none_reads_as_missing Demo.demo_message
                    Demo.config_no_keys "gemini.api_key" (VStr "D"))).
    reflexivity.
  - refine (proj1 (proj2 (proj2 (config_none_reads_as_missing
                                   Demo.demo_message Demo.config_no_keys
                                   "x.y" (VStr "D"))) _ _)).
    reflexivity.
Defined.

(* ------------------------------------------------------------------ *)
(** ** Order of the pieces of an assembled prompt                       *)
(* ------------------------------------------------------------------ *)

Lemma sapp_assoc (a b c : string) : (a +++ b) +++ c = a +++ b +++ c.
Proof. induction a as [|x a IH]; simpl; [reflexivity | now rewrite IH]. Qed.

Lemma sapp_nil_r (a : string) : a +++ EmptyString = a.
Proof. induction a as [|x a IH]; simpl; [reflexivity | now rewrite IH]. Qed.

Lemma occurs_in_order_prefix segs : forall p s,
  occurs_in_order segs s -> occurs_in_order segs (p +++ s).
Proof.
  destruct segs as [|seg rest]; intros p s H; simpl in *; [exact I|].
  destruct H as (pre & post & -> & Hrest).
  exists (p +++ pre), post. split; [|exact Hrest].
  now rewrite sapp_assoc.
Qed.

Lemma occurs_in_order_app a : forall b s1 s2,
  occurs_in_order a s1 -> occurs_in_order b s2 ->
  occurs_in_order (a ++ b) (s1 +++ s2).
Proof.
  induction a as [|seg rest IH]; intros b s1 s2 Ha Hb; simpl in *.
  - now apply occurs_in_order_prefix.
  - destruct Ha as (pre & post & -> & Hrest).
    exists pre, (post +++ s2). split.
    + now rewrite !sapp_assoc.
    + now apply IH.
Qed.

Lemma occurs_in_order_suffix segs s q :
  occurs_in_order segs s -> occurs_in_order segs (s +++ q).
Proof.
  intros H. rewrite <- (app_nil_r segs).
  apply occurs_in_order_app; [exact H | exact I].
Qed.

Lemma occurs_in_order_single s : occurs_in_order [s] s.
Proof.
  exists EmptyString, EmptyString. split; [|exact I].
  simpl. now rewrite sapp_nil_r.
Qed.

(** The joined lines hold the lines in list order. *)
Lemma occurs_in_order_join sep lines :
  occurs_in_order lines (join sep lines).
Proof.
  induction lines as [|x r IH]; [exact I|].
  destruct r as [|y r'].
  - apply occurs_in_order_single.
  - change (join sep (x :: y :: r')) with (x +++ sep +++ join sep (y :: r')).
    change (x :: y :: r') with ([x] ++ (y :: r')).
    apply occurs_in_order_app; [apply occurs_in_order_single|].
    now apply occurs_in_order_prefix.
Qed.

Lemma join_single sep x : join sep [x] = x.
Proof. reflexivity. Qed.

Lemma join_cons2 sep x y r :
  join sep (x :: y :: r) = x +++ sep +++ join sep (y :: r).
Proof. reflexivity. Qed.

(** An optional container that fails [if x:] has no items. *)
Lemma items_of_falsy {A : Type} (x : option (list A)) :
  nonempty_opt x = false -> items_of x = [].
Proof. destruct x as [[|a l]|]; simpl; (discriminate || reflexivity). Qed.

(** The loop [for msg in history: messages.append(...)]. *)
Lemma fold_left_append {A B : Type} (f : A -> B) (l : list A) :
  forall acc, fold_left (fun acc x => acc ++ [f x]) l acc = acc ++ map f l.
Proof.
  induction l as [|x r IH]; intros acc; simpl.
  - now rewrite app_nil_r.
  - rewrite IH, <- app_assoc. reflexivity.
Qed.

(** C9.  Both prompt builders keep the order of their inputs.  In the
    Gemini text the context lines (in the order of [context.items()]),
    then the history lines (in list order), then [User: prompt] occur one
    after the other, and the text ends with [User: prompt].  The GPT
    message list is one system message whose content holds the context
    lines in order, then one message per history entry in list order,
    then the user message with the prompt. *)
Theorem prompt_assembly_keeps_input_order :
  forall py_str prompt context history,
    let gemini_text :=
      GeminiProvider._build_prompt py_str prompt context history in
    occurs_in_order
      (map (GeminiProvider.context_line py_str) (items_of context)
       ++ map GeminiProvider.history_line (items_of history)
       ++ ["User: " +++ prompt])
      gemini_text /\
    ends_with gemini_text ("User: " +++ prompt) /\
    exists system_content,
      GPTProvider._build_messages py_str prompt context history =
        [GPTProvider.message "system" system_content]
        ++ map GPTProvider.history_message (items_of history)
        ++ [GPTProvider.message "user" prompt] /\
      occurs_in_order
        (map (GPTProvider.context_line py_str) (items_of context))
        system_content.
Proof.
  intros py_str prompt context history gemini_text.
  assert (Hctx : forall l : Context,
             occurs_in_order (map (GeminiProvider.context_line py_str) l)
               ("Context:" +++ nl
                +++ join nl (map (GeminiProvider.context_line py_str) l)
                +++ nl)).
  { intros l. apply occurs_in_order_prefix, occurs_in_order_prefix,
      occurs_in_order_suffix, occurs_in_order_join. }
  assert (Hhist : forall l : History,
             occurs_in_order (map GeminiProvider.history_line l)
               ("Previous conversation:" +++ nl
                +++ join nl (map GeminiProvider.history_line l) +++ nl)).
  { intros l. apply occurs_in_order_prefix, occurs_in_order_prefix,
      occurs_in_order_suffix, occurs_in_order_join. }
  split; [|split].
  - subst gemini_text. unfold GeminiProvider._build_prompt.
    destruct (nonempty_opt context) eqn:Ec;
      destruct (nonempty_opt history) eqn:Eh;
      try rewrite (items_of_falsy _ Ec); try rewrite (items_of_falsy _ Eh);
      cbn [map app]; rewrite ?join_cons2, ?join_single.
    + apply occurs_in_order_app; [apply Hctx|].
      apply occurs_in_order_prefix.
      apply occurs_in_order_app; [apply Hhist|].
      apply occurs_in_order_prefix, occurs_in_order_single.
    + apply occurs_in_order_app; [apply Hctx|].
      apply occurs_in_order_prefix, occurs_in_order_single.
    + apply occurs_in_order_app; [apply Hhist|].
      apply occurs_in_order_prefix, occurs_in_order_single.
    + apply occurs_in_order_single.
  - subst gemini_text. unfold GeminiProvider._build_prompt, ends_with.
    destruct (nonempty_opt context); destruct (nonempty_opt history);
      cbn [app]; rewrite ?join_cons2, ?join_single.
    + eexists. rewrite <- !sapp_assoc. reflexivity.
    + eexists. rewrite <- !sapp_assoc. reflexivity.
    + eexists. rewrite <- !sapp_assoc. reflexivity.
    + exists EmptyString. reflexivity.
  - unfold GPTProvider._build_messages.
    eexists. split.
    + destruct (nonempty_opt history) eqn:E.
      * rewrite fold_left_append. rewrite <- app_assoc. reflexivity.
      * rewrite (items_of_falsy _ E). reflexivity.
    + destruct (nonempty_opt context) eqn:E.
      * apply occurs_in_order_prefix, occurs_in_order_prefix,
          occurs_in_order_prefix, occurs_in_order_prefix,
          occurs_in_order_prefix, occurs_in_order_join.
      * rewrite (items_of_falsy _ E). exact I.
Qed.

(* ------------------------------------------------------------------ *)
(** ** Provider construction                                            *)
(* ------------------------------------------------------------------ *)

(** A configuration with a falsy credential or model fails validation,
    whatever the class. *)
Lemma validate_config_rejects cls config :
  truthy (api_key config) = false \/ truthy (model config) = false ->
  exists msg,
    AIProviderInit._validate_config cls config = ([], inl (mkExn ValueError msg)).
Proof.
  intros H. unfold AIProviderInit._validate_config.
  destruct (truthy (api_key config)) eqn:Ek; simpl.
  - destruct H as [H|H]; [discriminate|]. rewrite H. simpl.
    eexists. reflexivity.
  - eexists. reflexivity.
Qed.

(** C8.  Constructing a [GeminiProvider] or a [GPTProvider] from a
    configuration whose [api_key] or [model] is empty (falsy: the empty
    string, or [None]) raises [ValueError], and the trace up to the raise
    is empty: no SDK client was constructed or called. *)
Theorem provider_construction_rejects_empty_config :
  forall py_str genai_load openai_load config,
    truthy (api_key config) = false \/ truthy (model config) = false ->
    (exists msg,
        GeminiProvider.__init__ py_str genai_load config
        = ([], inl (mkExn ValueError msg))) /\
    (exists msg,
        GPTProvider.__init__ py_str openai_load config
        = ([], inl (mkExn ValueError msg))).
Proof.
  intros py_str genai_load openai_load config H.
  unfold GeminiProvider.__init__, GPTProvider.__init__, AIProviderInit.__init__.
  split.
  - destruct (validate_config_rejects "GeminiProvider" config H) as [msg ->].
    exists msg. reflexivity.
  - destruct (validate_config_rejects "GPTProvider" config H) as [msg ->].
    exists msg. reflexivity.
Qed.

(** C8 at the configuration of [test_provider_missing_api_key]: an empty
    [api_key] and the model [test_model]. *)
Lemma provider_construction_rejects_empty_config_witness :
  (exists msg,
      GeminiProvider.__init__ Demo.demo_str Demo.genai_ok
        (new_AIProviderConfig (VStr EmptyString) (VStr "test_model")
           default_temperature VNone VNone)
      = ([], inl (mkExn ValueError msg))) /\
  (exists msg,
      GPTProvider.__init__ Demo.demo_str Demo.openai_ok
        (new_AIProviderConfig (VStr EmptyString) (VStr "test_model")
           default_temperature VNone VNone)
      = ([], inl (mkExn ValueError msg))).
Proof.
  apply provider_construction_rejects_empty_config.
  left. reflexivity.
Defined.

(* ------------------------------------------------------------------ *)
(** ** Traces                                                           *)
(* ------------------------------------------------------------------ *)

Lemma invocations_app tr1 tr2 :
  invocations (tr1 ++ tr2) = invocations tr1 ++ invocations tr2.
Proof.
  induction tr1 as [|ev r IH]; simpl; [reflexivity|].
  destruct ev; simpl; now rewrite IH.
Qed.

Lemma warnings_app tr1 tr2 :
  warnings (tr1 ++ tr2) = warnings tr1 ++ warnings tr2.
Proof.
  induction tr1 as [|ev r IH]; simpl; [reflexivity|].
  destruct ev; simpl; now rewrite IH.
Qed.

(* ------------------------------------------------------------------ *)
(** ** The processor                                                    *)
(* ------------------------------------------------------------------ *)
Section ProcessorFacts.
Variable py_str : PyVal -> string.
Variable py_message : PyOp -> PyVal -> string.
Variable genai_load : PyVal -> PyVal -> Exn + GeminiProvider.Client.
Variable openai_load : PyVal -> Exn + GPTProvider.Client.

Lemma names_match_set providers key p :
  RequestProcessor.names_match providers -> get_provider_name p = key ->
  RequestProcessor.names_match (dict_set providers key p).
Proof.
  intros Hn Hp name q Hq.
  destruct (string_dec name key) as [->|Hne].
  - rewrite dict_get_set_same in Hq. now inversion Hq; subst.
  - rewrite dict_get_set_other in Hq by assumption. now apply Hn.
Qed.

(** One block of [_initialize_providers] never raises; it leaves the
    registry as it was or registers what the constructor returned. *)
Lemma initialize_one_total config section key label default_model construct
      providers :
  exists tr providers',
    RequestProcessor.initialize_one py_message config section key label
      default_model construct providers = (tr, inr providers') /\
    (providers' = providers \/
     exists cfg tr' p, construct cfg = (tr', inr p) /\
                       providers' = dict_set providers key p).
Proof.
  unfold RequestProcessor.initialize_one.
  destruct (Config.get_provider_config config section) as [e|sec];
    [simpl; eauto 6|].
  destruct sec; try (simpl; eauto 6).
  unfold lift, RequestProcessor.method_get.
  cbn [bind ret app].
  destruct (truthy (dict_get_default d "api_key" VNone)).
  - destruct (construct _) as [tr' [e|p]] eqn:E.
    + cbn. eauto 6.
    + cbn. do 2 eexists. split; [reflexivity|]. right. eauto.
  - cbn. eauto 6.
Qed.

Lemma gemini_init_name config tr p :
  GeminiProvider.__init__ py_str genai_load config = (tr, inr p) ->
  get_provider_name p = "gemini".
Proof.
  unfold GeminiProvider.__init__, AIProviderInit.__init__.
  destruct (AIProviderInit._validate_config _ config) as [tr0 [e|[]]];
    [discriminate|].
  unfold GeminiProvider._initialize_client.
  destruct (genai_load _ _) as [e|client]; cbn.
  - destruct (is_ImportError e); cbn; discriminate.
  - intros H. inversion H. reflexivity.
Qed.

Lemma gpt_init_name config tr p :
  GPTProvider.__init__ py_str openai_load config = (tr, inr p) ->
  get_provider_name p = "gpt".
Proof.
  unfold GPTProvider.__init__, AIProviderInit.__init__.
  destruct (AIProviderInit._validate_config _ config) as [tr0 [e|[]]];
    [discriminate|].
  unfold GPTProvider._initialize_client.
  destruct (openai_load _) as [e|client]; cbn.
  - destruct (is_ImportError e); cbn; discriminate.
  - intros H. inversion H. reflexivity.
Qed.

(** [_initialize_providers] never raises, and the registry it returns
    has matching names. *)
Lemma initialize_providers_total config :
  exists tr providers,
    RequestProcessor._initialize_providers py_str py_message genai_load
      openai_load config = (tr, inr providers) /\
    RequestProcessor.names_match providers.
Proof.
  unfold RequestProcessor._initialize_providers.
  destruct (initialize_one_total config "gemini" "gemini" "Gemini"
              "gemini-pro" (GeminiProvider.__init__ py_str genai_load) [])
    as (tr1 & ps1 & -> & H1).
  destruct (initialize_one_total config "openai" "gpt" "GPT"
              "gpt-3.5-turbo" (GPTProvider.__init__ py_str openai_load) ps1)
    as (tr2 & ps2 & E2 & H2).
  cbn [bind]. rewrite E2. do 2 eexists. split; [reflexivity|].
  assert (N1 : RequestProcessor.names_match ps1).
  { destruct H1 as [->|(cfg & tr' & p & Hc & ->)].
    - intros name p Hp. discriminate.
    - apply names_match_set; [intros name q Hq; discriminate|].
      eapply gemini_init_name; eauto. }
  destruct H2 as [->|(cfg & tr' & p & Hc & ->)]; [exact N1|].
  apply names_match_set; [exact N1|].
  eapply gpt_init_name; eauto.
Qed.

Lemma first_provider_registered (providers : list (string * AIProvider)) p :
  RequestProcessor.first_provider providers = Some p ->
  exists name, dict_get providers name = Some p.
Proof.
  destruct providers as [|[k q] r]; simpl; [discriminate|].
  intros H. inversion H; subst. exists k. simpl.
  now rewrite String.eqb_refl.
Qed.

Lemma first_provider_none (providers : list (string * AIProvider)) :
  RequestProcessor.first_provider providers = None <-> providers = [].
Proof.
  destruct providers as [|[k q] r]; cbn; split; intros H;
    (reflexivity || discriminate).
Qed.

(** What [__init__] returns when the configured default can be hashed:
    it does not raise, the registry is the one [_initialize_providers]
    built, and the default is the entry under the configured name if
    there is one and the first entry of the registry otherwise. *)
Lemma init_returns config :
  let configured := Config.get config "default_provider" (VStr "gemini") in
  hashable configured = true ->
  exists tr0 providers tr self,
    RequestProcessor._initialize_providers py_str py_message genai_load
      openai_load config = (tr0, inr providers) /\
    RequestProcessor.__init__ py_str py_message genai_load openai_load config
      = (tr, inr self) /\
    RequestProcessor.names_match providers /\
    RequestProcessor.providers self = providers /\
    RequestProcessor.config self = config /\
    RequestProcessor.default_provider self =
      match match configured with
            | VStr name => dict_get providers name
            | _ => None
            end with
      | Some p => Some p
      | None => RequestProcessor.first_provider providers
      end /\
    (RequestProcessor.default_provider self = None ->
     exists error_data, In (LogError error_data) tr /\
       envelope_field error_data "error_message"
       = Some (VStr "No AI providers available")).
Proof.
  intros configured Hh.
  destruct (initialize_providers_total config) as (tr0 & ps & E & N).
  unfold RequestProcessor.__init__. rewrite E. fold configured.
  exists tr0, ps.
  assert (G : RequestProcessor.registry_get py_message ps configured
              = ([], inr match configured with
                         | VStr name => dict_get ps name
                         | _ => None
                         end)).
  { unfold RequestProcessor.registry_get.
    destruct configured; try reflexivity; discriminate. }
  cbn [bind]. rewrite G. cbn [bind app].
  destruct (match configured with VStr name => dict_get ps name | _ => None end)
    as [p|] eqn:L.
  - cbn. do 2 eexists. repeat split; try reflexivity; try assumption.
    cbn. discriminate.
  - destruct (RequestProcessor.first_provider ps) as [q|] eqn:F.
    + cbn. do 2 eexists.
      repeat split; try reflexivity; try assumption.
      cbn. discriminate.
    + apply first_provider_none in F. subst ps.
      cbn. do 2 eexists.
      repeat split; try reflexivity; try assumption.
      eexists. split.
      * apply in_or_app. right. right. left. reflexivity.
      * reflexivity.
Qed.

(** [_select_provider] case by case. *)
Lemma select_provider_cases self provider_name :
  RequestProcessor._select_provider py_message self provider_name =
  match provider_name with
  | Some name =>
      if str_nonempty name then
        match dict_get (RequestProcessor.providers self) name with
        | Some p => ([], inr (Some p))
        | None =>
            ([LogWarning ("Requested provider '" +++ name
                          +++ "' not available. Falling back to default.")],
             inr (RequestProcessor.default_provider self))
        end
      else ([], inr (RequestProcessor.default_provider self))
  | None => ([], inr (RequestProcessor.default_provider self))
  end.
Proof.
  unfold RequestProcessor._select_provider.
  destruct provider_name as [name|]; [|reflexivity].
  destruct (str_nonempty name); [|reflexivity].
  cbn [RequestProcessor.registry_get bind ret app].
  destruct (dict_get (RequestProcessor.providers self) name); reflexivity.
Qed.

(** [_select_provider] never raises and calls no provider. *)
Lemma select_provider_total self provider_name :
  exists trs sel,
    RequestProcessor._select_provider py_message self provider_name
    = (trs, inr sel) /\ invocations trs = [].
Proof.
  rewrite select_provider_cases.
  destruct provider_name as [name|]; [|eauto].
  destruct (str_nonempty name); [|eauto].
  destruct (dict_get (RequestProcessor.providers self) name); eauto.
Qed.

(** A request that fails validation raises at once. *)
Lemma process_request_invalid self request context history provider_name :
  truthy request = false \/ isinstance_str request = false ->
  RequestProcessor.process_request py_message self request context history
    provider_name
  = ([], inl (mkExn ValidationException "Request must be a non-empty string")).
Proof.
  intros H. unfold RequestProcessor.process_request.
  destruct H as [-> | ->]; [reflexivity|].
  now rewrite orb_true_r.
Qed.

(** A valid request for which no provider resolves. *)
Lemma process_request_no_provider self s context history provider_name trs :
  str_nonempty s = true ->
  RequestProcessor._select_provider py_message self provider_name
  = (trs, inr None) ->
  exists error_data,
    RequestProcessor.process_request py_message self (VStr s) context history
      provider_name
    = (trs ++ [LogError error_data],
       inr (RequestProcessor.no_provider_envelope (VStr s))).
Proof.
  intros Hs Hsel. unfold RequestProcessor.process_request.
  cbn [truthy isinstance_str]. rewrite Hs. cbn [negb orb].
  rewrite Hsel. cbn. eexists. reflexivity.
Qed.

(** A valid request served by provider [p]: the provider is called once,
    and the envelope follows from what the call and the logging of the
    interaction did. *)
Lemma process_request_with_provider self s context history provider_name
      trs p :
  str_nonempty s = true ->
  RequestProcessor._select_provider py_message self provider_name
  = (trs, inr (Some p)) ->
  exists info last,
    RequestProcessor.process_request py_message self (VStr s) context history
      provider_name
    = (trs ++ [LogInfo info; Generate p s context history; last],
       inr match generate_response p s context history with
           | inl e =>
               if is_ProviderException e
               then RequestProcessor.failure_envelope (exn_str e)
                      (get_provider_name p) (VStr s)
               else RequestProcessor.failure_envelope
                      ("Unexpected error: " +++ exn_str e)
                      (get_provider_name p) (VStr s)
           | inr text =>
               match json_first_bad (RequestProcessor.context_value context) with
               | None => RequestProcessor.success_envelope text
                           (get_provider_name p) (VStr s)
               | Some bad =>
                   RequestProcessor.failure_envelope
                     ("Unexpected error: " +++ py_message OpJsonEncode bad)
                     (get_provider_name p) (VStr s)
               end
           end) /\
    invocations [last] = [] /\ warnings [last] = [].
Proof.
  intros Hs Hsel. unfold RequestProcessor.process_request.
  cbn [truthy isinstance_str]. rewrite Hs. cbn [negb orb].
  rewrite Hsel. cbn [bind].
  unfold RequestProcessor.call_generate, lift, Logger.log_interaction,
    Logger.log_error, Logger.log_info, Logger.json_dumps, emit.
  cbn [bind try_except ret app RequestProcessor.str_value].
  destruct (generate_response p s context history) as [e|text].
  - cbn [bind try_except ret app]. destruct (is_ProviderException e).
    + cbn. do 2 eexists. split; [reflexivity|]. split; reflexivity.
    + cbn. do 2 eexists. split; [reflexivity|]. split; reflexivity.
  - cbn [bind try_except ret app json_first_bad Logger.or_empty_dict truthy].
    destruct (json_first_bad (RequestProcessor.context_value context))
      as [bad|].
    + cbn. do 2 eexists. split; [reflexivity|]. split; reflexivity.
    + cbn. do 2 eexists. split; [reflexivity|]. split; reflexivity.
Qed.

(** [switch_default_provider] case by case. *)
Lemma switch_default_provider_cases self name :
  RequestProcessor.switch_default_provider py_message self name =
  match dict_get (RequestProcessor.providers self) name with
  | Some p =>
      ([LogInfo ("Default provider switched to: " +++ name)],
       inr (true, RequestProcessor.mk (RequestProcessor.config self)
                    (RequestProcessor.providers self) (Some p)))
  | None =>
      ([LogWarning ("Cannot switch to unavailable provider: " +++ name)],
       inr (false, self))
  end.
Proof.
  unfold RequestProcessor.switch_default_provider.
  cbn [RequestProcessor.registry_get bind ret app].
  destruct (dict_get (RequestProcessor.providers self) name); reflexivity.
Qed.

(** Every processor a caller can have is consistent. *)
Lemma reachable_consistent self :
  RequestProcessor.reachable py_str py_message genai_load openai_load self ->
  RequestProcessor.registry_consistent self.
Proof.
  induction 1 as [config tr self Hinit | self name tr b self' Hr IH Hsw].
  - unfold RequestProcessor.__init__ in Hinit.
    destruct (initialize_providers_total config) as (tr0 & ps & E & N).
    rewrite E in Hinit. cbn [bind] in Hinit.
    destruct (RequestProcessor.registry_get py_message ps _)
      as [trg [e|found]] eqn:G; [discriminate|].
    assert (Hfound : forall q, found = Some q ->
                               exists name, dict_get ps name = Some q).
    { unfold RequestProcessor.registry_get in G.
      destruct (Config.get config "default_provider" (VStr "gemini"));
        try (destruct (hashable _); inversion G; discriminate);
        inversion G; subst; eauto;
        try (cbn in G; inversion G; discriminate). }
    destruct found as [q|].
    + cbn in Hinit. inversion Hinit; subst. split; [exact N|].
      cbn. intros p Hp. apply Hfound. exact Hp.
    + cbn -[RequestProcessor.first_provider] in Hinit.
      destruct (RequestProcessor.first_provider ps) as [q|] eqn:F.
      * cbn in Hinit. inversion Hinit; subst. split; [exact N|].
        cbn. intros p Hp. inversion Hp; subst.
        now apply first_provider_registered.
      * apply first_provider_none in F. subst ps.
        cbn in Hinit. inversion Hinit; subst. split; [exact N|].
        cbn. discriminate.
  - rewrite switch_default_provider_cases in Hsw.
    destruct IH as [N D].
    destruct (dict_get (RequestProcessor.providers self) name) as [p|] eqn:L;
      inversion Hsw; subst; [|split; assumption].
    split; [exact N|]. cbn. intros q Hq. inversion Hq; subst. eauto.
Qed.

Lemma dict_get_set_inv {V : Type} (d : list (string * V)) k v name w :
  dict_get (dict_set d k v) name = Some w ->
  name = k \/ dict_get d name = Some w.
Proof.
  destruct (string_dec name k) as [->|Hne]; [now left|].
  rewrite dict_get_set_other by assumption. now right.
Qed.

(** The registry [_initialize_providers] builds has no empty key. *)
Lemma initialize_providers_keys config tr providers :
  RequestProcessor._initialize_providers py_str py_message genai_load
    openai_load config = (tr, inr providers) ->
  forall name p, dict_get providers name = Some p -> str_nonempty name = true.
Proof.
  unfold RequestProcessor._initialize_providers.
  destruct (initialize_one_total config "gemini" "gemini" "Gemini"
              "gemini-pro" (GeminiProvider.__init__ py_str genai_load) [])
    as (tr1 & ps1 & -> & H1).
  destruct (initialize_one_total config "openai" "gpt" "GPT"
              "gpt-3.5-turbo" (GPTProvider.__init__ py_str openai_load) ps1)
    as (tr2 & ps2 & E2 & H2).
  cbn [bind]. rewrite E2. intros H. inversion H; subst. clear H.
  assert (K1 : forall name p, dict_get ps1 name = Some p ->
                              str_nonempty name = true).
  { destruct H1 as [->|(cfg & tr' & q & _ & ->)]; intros name p Hp.
    - discriminate.
    - apply dict_get_set_inv in Hp. destruct Hp as [->|Hp];
        [reflexivity | discriminate]. }
  destruct H2 as [->|(cfg & tr' & q & _ & ->)]; [exact K1|].
  intros name p Hp. apply dict_get_set_inv in Hp.
  destruct Hp as [->|Hp]; [reflexivity | eauto].
Qed.

(** [__init__] keeps the registry [_initialize_providers] built. *)
Lemma init_keeps_registry config tr self :
  RequestProcessor.__init__ py_str py_message genai_load openai_load config
  = (tr, inr self) ->
  exists tr0,
    RequestProcessor._initialize_providers py_str py_message genai_load
      openai_load config = (tr0, inr (RequestProcessor.providers self)).
Proof.
  unfold RequestProcessor.__init__.
  destruct (initialize_providers_total config) as (tr0 & ps & E & N).
  rewrite E. cbn [bind].
  destruct (RequestProcessor.registry_get py_message ps _)
    as [trg [e|found]]; [discriminate|].
  destruct found as [q|].
  - cbn. intros H. inversion H; subst. eauto.
  - cbn -[RequestProcessor.first_provider].
    destruct (RequestProcessor.first_provider ps) as [q|] eqn:F.
    + cbn. intros H. inversion H; subst. eauto.
    + apply first_provider_none in F. subst ps.
      cbn. intros H. inversion H; subst. eauto.
Qed.

(** No reachable processor has a provider registered under the empty
    name. *)
Lemma reachable_keys_nonempty self :
  RequestProcessor.reachable py_str py_message genai_load openai_load self ->
  forall name p, dict_get (RequestProcessor.providers self) name = Some p ->
                 str_nonempty name = true.
Proof.
  induction 1 as [config tr self Hinit | self name tr b self' Hr IH Hsw].
  - destruct (init_keeps_registry _ _ _ Hinit) as [tr0 E].
    eapply initialize_providers_keys; eauto.
  - rewrite switch_default_provider_cases in Hsw.
    destruct (dict_get (RequestProcessor.providers self) name);
      inversion Hsw; subst; exact IH.
Qed.

End ProcessorFacts.

(* ================================================================== *)
(** * Provider selection and the request contract                       *)
(* ================================================================== *)

(** The two demo processors are the ones [__init__] returns. *)
Lemma demo_processor_both_reachable :
  RequestProcessor.reachable Demo.demo_str Demo.demo_message Demo.genai_ok
    Demo.openai_ok Demo.processor_both.
Proof.
  apply (RequestProcessor.reach_init _ _ _ _ Demo.config_both
           (fst (Demo.new_processor Demo.config_both))).
  reflexivity.
Defined.

Lemma demo_processor_empty_reachable :
  RequestProcessor.reachable Demo.demo_str Demo.demo_message Demo.genai_ok
    Demo.openai_ok Demo.processor_empty.
Proof.
  apply (RequestProcessor.reach_init _ _ _ _ Demo.config_no_keys
           (fst (Demo.new_processor Demo.config_no_keys))).
  reflexivity.
Defined.

(** C1, as the code has it.  For a processor built by [__init__] (and
    any later [switch_default_provider]) and a valid request: a
    [provider_name] that is a key of the registry gets that entry called,
    once and without a warning, and the envelope's [provider] is that
    name; a non-empty [provider_name] that is not a key logs one warning
    and then behaves as the call without [provider_name]; a
    [provider_name] that is absent or the empty string behaves as the
    call without [provider_name] and logs no warning; the call without
    [provider_name] calls the default provider, and the envelope's
    [provider] is the default's name. *)
Theorem provider_selection_routing :
  forall py_str py_message genai_load openai_load self s context history,
    RequestProcessor.reachable py_str py_message genai_load openai_load self ->
    str_nonempty s = true ->
    let run := RequestProcessor.process_request py_message self (VStr s)
                 context history in
    (forall name p,
        dict_get (RequestProcessor.providers self) name = Some p ->
        invocations (trace_of (run (Some name))) = [(p, s)] /\
        warnings (trace_of (run (Some name))) = [] /\
        exists envelope,
          result_of (run (Some name)) = inr envelope /\
          envelope_field envelope "provider" = Some (VStr name)) /\
    (forall name,
        str_nonempty name = true ->
        dict_get (RequestProcessor.providers self) name = None ->
        exists w,
          run (Some name)
          = (LogWarning w :: trace_of (run None), result_of (run None))) /\
    (forall provider_name,
        RequestProcessor.name_given provider_name = false ->
        run provider_name = run None) /\
    warnings (trace_of (run None)) = [] /\
    (forall d,
        RequestProcessor.default_provider self = Some d ->
        invocations (trace_of (run None)) = [(d, s)] /\
        exists envelope,
          result_of (run None) = inr envelope /\
          envelope_field envelope "provider"
          = Some (VStr (get_provider_name d))).
Proof.
  intros py_str py_message genai_load openai_load self s context history
         Hr Hs run.
  pose proof (reachable_consistent _ _ _ _ _ Hr) as [Hnames _].
  pose proof (reachable_keys_nonempty _ _ _ _ _ Hr) as Hkeys.
  assert (Hserved : forall provider_name trs p,
             RequestProcessor._select_provider py_message self provider_name
             = (trs, inr (Some p)) ->
             invocations trs = [] ->
             invocations (trace_of (run provider_name)) = [(p, s)] /\
             warnings (trace_of (run provider_name)) = warnings trs /\
             exists envelope,
               result_of (run provider_name) = inr envelope /\
               envelope_field envelope "provider"
               = Some (VStr (get_provider_name p))).
  { intros provider_name trs p Hsel Hinv.
    destruct (process_request_with_provider py_message self s context history
                provider_name trs p Hs Hsel) as (info & last & E & Hi & Hw).
    subst run. cbv beta. rewrite E. unfold trace_of, result_of. cbn [fst snd].
    rewrite invocations_app, warnings_app, Hinv.
    change [LogInfo info; Generate p s context history; last]
      with ([LogInfo info; Generate p s context history] ++ [last]).
    rewrite invocations_app, warnings_app, Hi, Hw. cbn [app].
    split; [reflexivity|]. split; [now rewrite app_nil_r|].
    eexists. split; [reflexivity|].
    destruct (generate_response p s context history) as [e|text].
    - destruct (is_ProviderException e); reflexivity.
    - destruct (json_first_bad _); reflexivity. }
  assert (Hnone : RequestProcessor._select_provider py_message self None
                  = ([], inr (RequestProcessor.default_provider self))).
  { now rewrite select_provider_cases. }
  assert (Hkey : forall name p,
             dict_get (RequestProcessor.providers self) name = Some p ->
             RequestProcessor._select_provider py_message self (Some name)
             = ([], inr (Some p))).
  { intros name p H.
    rewrite select_provider_cases, (Hkeys _ _ H), H. reflexivity. }
  repeat split.
  - destruct (Hserved _ _ _ (Hkey _ _ H) eq_refl) as (Hi & _ & _).
    exact Hi.
  - destruct (Hserved _ _ _ (Hkey _ _ H) eq_refl) as (_ & Hw & _).
    exact Hw.
  - destruct (Hserved _ _ _ (Hkey _ _ H) eq_refl)
      as (_ & _ & envelope & He & Hf).
    exists envelope. split; [exact He|].
    now rewrite Hf, (Hnames _ _ H).
  - intros name Hn Habs. eexists.
    assert (Hsel : RequestProcessor._select_provider py_message self (Some name)
                   = ([LogWarning ("Requested provider '" +++ name
                          +++ "' not available. Falling back to default.")],
                      inr (RequestProcessor.default_provider self))).
    { now rewrite select_provider_cases, Hn, Habs. }
    subst run. cbv beta. unfold RequestProcessor.process_request.
    cbn [truthy isinstance_str]. rewrite Hs. cbn [negb orb].
    rewrite Hsel, Hnone. unfold bind, trace_of, result_of.
    destruct (RequestProcessor.default_provider self) as [d|].
    + match goal with
      | |- (let '(tr', r) := ?m in _) = _ => destruct m as [tr' r]
      end.
      reflexivity.
    + match goal with
      | |- (let '(tr', r) := ?m in _) = _ => destruct m as [tr' r]
      end.
      reflexivity.
  - intros provider_name Hg. subst run. cbv beta.
    unfold RequestProcessor.process_request.
    assert (Hsel : RequestProcessor._select_provider py_message self
                     provider_name
                   = RequestProcessor._select_provider py_message self None).
    { rewrite !select_provider_cases.
      destruct provider_name as [name|]; [|reflexivity].
      cbn in Hg. now rewrite Hg. }
    now rewrite Hsel.
  - destruct (RequestProcessor.default_provider self) as [d|] eqn:D.
    + destruct (Hserved _ _ _ Hnone eq_refl) as (_ & Hw & _).
      exact Hw.
    + destruct (process_request_no_provider py_message self s context history
                  None [] Hs Hnone) as [error_data E].
      subst run. cbv beta. rewrite E. reflexivity.
  - rewrite H in Hnone.
    destruct (Hserved _ _ _ Hnone eq_refl) as (Hi & _ & _).
    exact Hi.
  - rewrite H in Hnone.
    destruct (Hserved _ _ _ Hnone eq_refl) as (_ & _ & He).
    exact He.
Qed.

(** C1 on the processor built from [config_both]: asking for ["gpt"]
    calls the GPT provider and the envelope says so. *)
Lemma provider_selection_routing_witness :
  invocations
    (trace_of (Demo.process Demo.processor_both (VStr "hello") None None
                 (Some "gpt")))
  = [(Demo.gpt, "hello")].
Proof.
  refine (proj1 (proj1 (provider_selection_routing Demo.demo_str
                          Demo.demo_message Demo.genai_ok Demo.openai_ok
                          Demo.processor_both "hello" None None _ _)
                   "gpt" Demo.gpt _)).
  - exact demo_processor_both_reachable.
  - reflexivity.
  - reflexivity.
Defined.

(** C1 as stated fails at an empty [provider_name]: the empty string is given
    and is not a key of the registry, yet no warning is logged. *)
Lemma empty_provider_name_logs_no_warning :
  dict_get (RequestProcessor.providers Demo.processor_both) EmptyString = None /\
  warnings
    (trace_of (Demo.process Demo.processor_both (VStr "hello") None None
                 (Some EmptyString)))
  = [].
Proof. split; reflexivity. Qed.

(** C2, as the code has it.  [process_request] with a non-empty string
    request never raises.  With [p] the provider [_select_provider]
    returns: a [ProviderException] from [p.generate_response] gives the
    failure envelope with the exception's message; any other exception
    gives the failure envelope with the message after
    ["Unexpected error: "]; a returned text gives the success envelope
    when the context can be JSON-encoded for the interaction record, and
    otherwise the [TypeError] of the logging call, raised inside the same
    [try], gives the failure envelope with the ["Unexpected error: "]
    prefix.  When no provider resolves the envelope is the one without a
    provider. *)
Theorem process_request_never_raises :
  forall py_message self s context history provider_name,
    str_nonempty s = true ->
    exists tr envelope selected,
      RequestProcessor.process_request py_message self (VStr s) context
        history provider_name = (tr, inr envelope) /\
      result_of (RequestProcessor._select_provider py_message self
                   provider_name) = inr selected /\
      envelope =
      match selected with
      | None => RequestProcessor.no_provider_envelope (VStr s)
      | Some p =>
          match generate_response p s context history with
          | inl e =>
              if is_ProviderException e
              then RequestProcessor.failure_envelope (exn_str e)
                     (get_provider_name p) (VStr s)
              else RequestProcessor.failure_envelope
                     ("Unexpected error: " +++ exn_str e)
                     (get_provider_name p) (VStr s)
          | inr text =>
              match json_first_bad (RequestProcessor.context_value context) with
              | None => RequestProcessor.success_envelope text
                          (get_provider_name p) (VStr s)
              | Some bad =>
                  RequestProcessor.failure_envelope
                    ("Unexpected error: " +++ py_message OpJsonEncode bad)
                    (get_provider_name p) (VStr s)
              end
          end
      end.
Proof.
  intros py_message self s context history provider_name Hs.
  destruct (select_provider_total py_message self provider_name)
    as (trs & sel & Hsel & _).
  destruct sel as [p|].
  - destruct (process_request_with_provider py_message self s context history
                provider_name trs p Hs Hsel) as (info & last & E & _).
    rewrite E, Hsel. do 3 eexists. repeat split.
  - destruct (process_request_no_provider py_message self s context history
                provider_name trs Hs Hsel) as (error_data & E).
    rewrite E, Hsel. do 3 eexists. repeat split.
Qed.

(** C2 at a plain request on the processor built from [config_both]. *)
Lemma process_request_never_raises_witness :
  raises (Demo.process Demo.processor_both (VStr "hello") None None None)
  = false.
Proof.
  destruct (process_request_never_raises Demo.demo_message Demo.processor_both
              "hello" None None None eq_refl) as (tr & envelope & sel & E & _).
  unfold Demo.process, raises. rewrite E. reflexivity.
Defined.

(** C2 as stated fails when the context holds a value [json] cannot
    encode: the provider returned its text, and the envelope is a
    failure. *)
Lemma returned_text_with_unencodable_context_fails :
  RequestProcessor.default_provider Demo.processor_both = Some Demo.gemini /\
  generate_response Demo.gemini "hello" Demo.decimal_context None
  = inr "gemini says hi" /\
  result_of (Demo.process Demo.processor_both (VStr "hello")
               Demo.decimal_context None None)
  = inr (RequestProcessor.failure_envelope
           "Unexpected error: Object of type Decimal is not JSON serializable"
           "gemini" (VStr "hello")).
Proof. repeat split. Qed.

(** The part of C3 the code implements.  A request that is falsy (the
    empty string, [None], ...) or not a string raises
    [ValidationException] before anything else happens: the trace is
    empty, so no provider was called. *)
Lemma falsy_or_non_string_request_raises :
  forall py_message self request context history provider_name,
    truthy request = false \/ isinstance_str request = false ->
    RequestProcessor.process_request py_message self request context history
      provider_name
    = ([], inl (mkExn ValidationException
                  "Request must be a non-empty string")).
Proof.
  intros py_message self request context history provider_name.
  apply process_request_invalid.
Qed.

(** At [request=None] and at the empty request: both raise with an empty
    trace. *)
Lemma falsy_or_non_string_request_raises_witness :
  Demo.process Demo.processor_both VNone None None None
  = ([], inl (mkExn ValidationException "Request must be a non-empty string")) /\
  Demo.process Demo.processor_both (VStr EmptyString) None None None
  = ([], inl (mkExn ValidationException "Request must be a non-empty string")).
Proof.
  split.
  - apply (falsy_or_non_string_request_raises Demo.demo_message
             Demo.processor_both VNone None None None).
    left. reflexivity.
  - apply (falsy_or_non_string_request_raises Demo.demo_message
             Demo.processor_both (VStr EmptyString) None None None).
    left. reflexivity.
Defined.

(** C3 at the whitespace-only request of [example_error_handling], which
    lists it among the invalid inputs: the check
    [not request or not isinstance(request, str)] does not trim, so the
    call raises nothing and the default provider is called with the three
    spaces. *)
Lemma whitespace_request_is_processed :
  raises (Demo.process Demo.processor_both Demo.blank_request None None None)
  = false /\
  invocations
    (trace_of (Demo.process Demo.processor_both Demo.blank_request None None
                 None))
  = [(Demo.gemini, "   ")].
Proof. split; reflexivity. Qed.

(** C4.  On a processor built by [__init__] whose registry is empty, a
    valid request returns, for every [provider_name], the envelope
    [{success: False, error: "No AI provider available", request}]; the
    call does not raise and calls no provider. *)
Theorem empty_registry_gives_no_provider_envelope :
  forall py_str py_message genai_load openai_load self s context history
         provider_name,
    RequestProcessor.reachable py_str py_message genai_load openai_load self ->
    RequestProcessor.providers self = [] ->
    str_nonempty s = true ->
    exists tr envelope,
      RequestProcessor.process_request py_message self (VStr s) context
        history provider_name = (tr, inr envelope) /\
      invocations tr = [] /\
      envelope = RequestProcessor.no_provider_envelope (VStr s) /\
      envelope_field envelope "success" = Some (VBool false) /\
      envelope_field envelope "error" = Some (VStr "No AI provider available").
Proof.
  intros py_str py_message genai_load openai_load self s context history
         provider_name Hr Hempty Hs.
  destruct (reachable_consistent _ _ _ _ _ Hr) as [_ Hdef].
  assert (D : RequestProcessor.default_provider self = None).
  { destruct (RequestProcessor.default_provider self) as [d|]; [|reflexivity].
    destruct (Hdef d eq_refl) as [name Hn].
    rewrite Hempty in Hn. discriminate. }
  destruct (select_provider_total py_message self provider_name)
    as (trs & sel & Hsel & Hinv).
  assert (sel = None) as ->.
  { rewrite select_provider_cases, Hempty, D in Hsel.
    destruct provider_name as [name|];
      [destruct (str_nonempty name)|]; cbn in Hsel; now inversion Hsel. }
  destruct (process_request_no_provider py_message self s context history
              provider_name trs Hs Hsel) as (error_data & E).
  rewrite E. do 2 eexists. split; [reflexivity|].
  rewrite invocations_app, Hinv. repeat split.
Qed.

(** C4 on the processor built when no API key is configured, asking for
    a provider by name. *)
Lemma empty_registry_gives_no_provider_envelope_witness :
  exists tr envelope,
    Demo.process Demo.processor_empty (VStr "hello") None None (Some "gpt")
    = (tr, inr envelope) /\
    invocations tr = [] /\
    envelope = RequestProcessor.no_provider_envelope (VStr "hello") /\
    envelope_field envelope "success" = Some (VBool false) /\
    envelope_field envelope "error" = Some (VStr "No AI provider available").
Proof.
  apply (empty_registry_gives_no_provider_envelope Demo.demo_str
           Demo.demo_message Demo.genai_ok Demo.openai_ok Demo.processor_empty).
  - exact demo_processor_empty_reachable.
  - reflexivity.
  - reflexivity.
Defined.



(** C5 on the configuration without API keys: construction returns a
    processor without default provider. *)
Lemma init_without_keys_has_no_default :
  exists tr self,
    Demo.new_processor Demo.config_no_keys = (tr, inr self) /\
    RequestProcessor.providers self = [] /\
    RequestProcessor.default_provider self = None.
Proof. do 2 eexists. repeat split. Qed.

(** C6.  [switch_default_provider(name)] never raises.  It returns
    [True] exactly when [name] is a key of the registry, and then the
    default provider is the entry under [name]; otherwise it returns
    [False] and the processor is unchanged.  The registry and the
    configuration are the same afterwards in both cases. *)
Theorem switch_default_provider_contract :
  forall py_message self name,
    exists tr b self',
      RequestProcessor.switch_default_provider py_message self name
      = (tr, inr (b, self')) /\
      (b = true <-> dict_contains (RequestProcessor.providers self) name = true) /\
      RequestProcessor.providers self' = RequestProcessor.providers self /\
      RequestProcessor.config self' = RequestProcessor.config self /\
      (b = true ->
       RequestProcessor.default_provider self'
       = dict_get (RequestProcessor.providers self) name) /\
      (b = false -> self' = self).
Proof.
  intros py_message self name.
  rewrite switch_default_provider_cases. unfold dict_contains.
  destruct (dict_get (RequestProcessor.providers self) name) as [p|].
  - do 3 eexists. split; [reflexivity|].
    repeat split; try reflexivity. discriminate.
  - do 3 eexists. split; [reflexivity|].
    repeat split; try reflexivity; discriminate.
Qed.

(* ================================================================== *)
(** * Further properties of the configuration store                     *)
(* ================================================================== *)
Section ConfigMore.
Variable py_message : PyOp -> PyVal -> string.

(** A [set] that returned leaves a store on which the same key can be
    set again. *)
Lemma set_loop_settable_after keys : forall config value config',
  Config.set_loop py_message config keys value = (config', None) ->
  settable config' keys = true.
Proof.
  induction keys as [|k ks IH]; intros config value config' H.
  - discriminate.
  - destruct ks as [|k2 ks2].
    + cbn in H. destruct config; inversion H. reflexivity.
    + rewrite set_loop_step in H. destruct config; try discriminate.
      cbv zeta in H.
      destruct (Config.set_loop py_message _ (k2 :: ks2) value)
        as [child' exn] eqn:E.
      inversion H; subst. rewrite settable_step, dict_get_set_same.
      eapply IH; eauto.
Qed.

End ConfigMore.

(** X2.  The last write wins.  After a [set(key, v1)] that returned, a
    second [set(key, v2)] returns too, and [get(key)] is then [v2]. *)
Theorem config_set_twice :
  forall py_message c key v1 v2 c1,
    Config.set py_message c key v1 = (c1, None) ->
    exists c2,
      Config.set py_message c1 key v2 = (c2, None) /\
      Config.get c2 key VNone = v2.
Proof.
  intros py_message c key v1 v2 c1 H1. unfold Config.set, Config.get in *.
  destruct (Config.set_loop py_message (Config._config c) (split_dot key) v1)
    as [cfg1 exn1] eqn:E1.
  inversion H1; subst. cbn [Config._config].
  pose proof (set_loop_settable_after _ _ _ _ _ E1) as S1.
  apply (set_loop_ok_iff py_message _ _ v2) in S1.
  destruct (Config.set_loop py_message cfg1 (split_dot key) v2)
    as [cfg2 exn2] eqn:E2.
  cbn in S1. subst exn2. eexists. split; [reflexivity|].
  cbn [Config._config].
  rewrite get_loop_stored_at by apply split_dot_not_nil.
  rewrite (set_loop_stored_at _ _ _ _ _ E2).
  destruct v2; reflexivity.
Qed.

(** X2 on the environment store. *)
Lemma config_set_twice_witness :
  exists c2,
    Config.set Demo.demo_message
      (fst (Config.set Demo.demo_message Demo.config_both "test.key"
              (VStr "first")))
      "test.key" (VStr "second") = (c2, None) /\
    Config.get c2 "test.key" VNone = VStr "second".
Proof.
  apply (config_set_twice Demo.demo_message Demo.config_both "test.key"
           (VStr "first")).
  reflexivity.
Defined.

(* ================================================================== *)
(** * Further properties of provider construction and of the registry   *)
(* ================================================================== *)

Lemma client_inits_app tr1 tr2 :
  client_inits (tr1 ++ tr2) = client_inits tr1 ++ client_inits tr2.
Proof.
  induction tr1 as [|ev r IH]; simpl; [reflexivity|].
  destruct ev; simpl; now rewrite IH.
Qed.

Section ProcessorMore.
Variable py_str : PyVal -> string.
Variable py_message : PyOp -> PyVal -> string.
Variable genai_load : PyVal -> PyVal -> Exn + GeminiProvider.Client.
Variable openai_load : PyVal -> Exn + GPTProvider.Client.

(** [GeminiProvider.__init__] case by case. *)
Lemma gemini_init_cases config :
  GeminiProvider.__init__ py_str genai_load config =
  if truthy (api_key config) && truthy (model config) then
    match genai_load (api_key config) (model config) with
    | inr client =>
        ([ClientInit "GeminiProvider" config],
         inr (GeminiProvider.instance py_str config (Some client)))
    | inl e =>
        ([ClientInit "GeminiProvider" config],
         inl (mkExn ProviderException
                (if is_ImportError e
                 then "google-generativeai package not installed. "
                      +++ "Install it with: pip install google-generativeai"
                 else "Failed to initialize Gemini client: " +++ exn_str e)))
    end
  else
    ([], inl (mkExn ValueError
                (if truthy (api_key config)
                 then "GeminiProvider requires a model name"
                 else "GeminiProvider requires an API key"))).
Proof.
  unfold GeminiProvider.__init__, AIProviderInit.__init__,
    AIProviderInit._validate_config, GeminiProvider._initialize_client.
  destruct (truthy (api_key config)); [|reflexivity].
  destruct (truthy (model config)); [|reflexivity].
  cbn [negb andb bind ret emit app].
  destruct (genai_load (api_key config) (model config)) as [e|client].
  - destruct (is_ImportError e); reflexivity.
  - reflexivity.
Qed.

(** [GPTProvider.__init__] case by case. *)
Lemma gpt_init_cases config :
  GPTProvider.__init__ py_str openai_load config =
  if truthy (api_key config) && truthy (model config) then
    match openai_load (api_key config) with
    | inr client =>
        ([ClientInit "GPTProvider" config],
         inr (GPTProvider.instance py_str config (Some client)))
    | inl e =>
        ([ClientInit "GPTProvider" config],
         inl (mkExn ProviderException
                (if is_ImportError e
                 then "openai package not installed. "
                      +++ "Install it with: pip install openai"
                 else "Failed to initialize OpenAI client: " +++ exn_str e)))
    end
  else
    ([], inl (mkExn ValueError
                (if truthy (api_key config)
                 then "GPTProvider requires a model name"
                 else "GPTProvider requires an API key"))).
Proof.
  unfold GPTProvider.__init__, AIProviderInit.__init__,
    AIProviderInit._validate_config, GPTProvider._initialize_client.
  destruct (truthy (api_key config)); [|reflexivity].
  destruct (truthy (model config)); [|reflexivity].
  cbn [negb andb bind ret emit app].
  destruct (openai_load (api_key config)) as [e|client].
  - destruct (is_ImportError e); reflexivity.
  - reflexivity.
Qed.

(** One block of [_initialize_providers], by what the configuration
    holds and what the constructor does. *)
Lemma initialize_one_outcome config section key label default_model construct
      providers :
  let v := section_of config section in
  let cfg := provider_config_of v default_model in
  exists tr providers',
    RequestProcessor.initialize_one py_message config section key label
      default_model construct providers = (tr, inr providers') /\
    ((credential_configured config section = true /\
      exists tr' p, construct cfg = (tr', inr p) /\
                    providers' = dict_set providers key p /\
                    tr = tr' ++ [LogInfo (label
                                 +++ " provider initialized successfully")]) \/
     (credential_configured config section = true /\
      exists tr' e, construct cfg = (tr', inl e) /\
                    providers' = providers /\
                    tr = tr' ++ [LogWarning ("Failed to initialize " +++ label
                                   +++ " provider: " +++ exn_str e)]) \/
     (credential_configured config section = false /\
      providers' = providers /\ client_inits tr = [] /\
      (tr = [] \/ exists w, tr = [LogWarning w]))).
Proof.
  intros v cfg. subst cfg. unfold credential_configured. fold v.
  unfold RequestProcessor.initialize_one, Config.get_provider_config.
  unfold section_of in v. fold v.
  destruct v as [| | | | |l|d|cls] eqn:V; cbn [is_dict andb credential_of].
  1-6,8: destruct (truthy _); cbn; do 2 eexists;
    (split; [reflexivity|]); right; right; repeat split; eauto.
  unfold provider_config_of.
  destruct d as [|kv d'].
  - cbn. do 2 eexists. split; [reflexivity|]. right. right.
    repeat split; eauto.
  - cbn [truthy negb lift bind ret app RequestProcessor.method_get].
    destruct (truthy (dict_get_default (kv :: d') "api_key" VNone)).
    + destruct (construct _) as [tr' [e|p]] eqn:E.
      * cbn. do 2 eexists. split; [reflexivity|]. right. left.
        split; [reflexivity|]. do 2 eexists. repeat split.
      * cbn. do 2 eexists. split; [reflexivity|]. left.
        split; [reflexivity|]. do 2 eexists. repeat split.
    + cbn. do 2 eexists. split; [reflexivity|]. right. right.
      repeat split; eauto.
Qed.

(** A section with a credential gives a configuration with that
    credential. *)
Lemma credential_configured_api_key config section default_model :
  credential_configured config section = true ->
  truthy (api_key (provider_config_of (section_of config section)
                     default_model)) = true.
Proof.
  unfold credential_configured.
  destruct (section_of config section); cbn; try discriminate.
  now intros.
Qed.

(** The Gemini block: the registry and the SDK contacts it leaves. *)
Lemma gemini_block config providers :
  let cfg := provider_config_of (section_of config "gemini") "gemini-pro" in
  let ready := credential_configured config "gemini" && truthy (model cfg) in
  exists tr,
    RequestProcessor.initialize_one py_message config "gemini" "gemini"
      "Gemini" "gemini-pro" (GeminiProvider.__init__ py_str genai_load)
      providers
    = (tr, inr match genai_load (api_key cfg) (model cfg) with
               | inr client =>
                   if ready
                   then dict_set providers "gemini"
                          (GeminiProvider.instance py_str cfg (Some client))
                   else providers
               | inl _ => providers
               end) /\
    client_inits tr = (if ready then ["GeminiProvider"] else []) /\
    (ready = true ->
     forall e, genai_load (api_key cfg) (model cfg) = inl e ->
               exists w, warnings tr = [w] /\
                         starts_with w "Failed to initialize Gemini provider: ").
Proof.
  intros cfg ready.
  destruct (initialize_one_outcome config "gemini" "gemini"
              "Gemini" "gemini-pro" (GeminiProvider.__init__ py_str genai_load)
              providers) as (tr & ps & E & O).
  fold cfg in O. rewrite E. exists tr.
  rewrite gemini_init_cases in O.
  destruct O as [(C & tr' & p & Hc & -> & ->)
                |[(C & tr' & e & Hc & -> & ->)
                 |(C & -> & Hi & Ht)]].
  - pose proof (credential_configured_api_key _ _ "gemini-pro" C) as K.
    fold cfg in K. subst ready. rewrite C, K in *. cbn [andb] in *.
    destruct (truthy (model cfg)); [|discriminate].
    destruct (genai_load (api_key cfg) (model cfg)) as [e|client];
      [discriminate|].
    inversion Hc; subst. repeat split. intros _ e He. discriminate.
  - pose proof (credential_configured_api_key _ _ "gemini-pro" C) as K.
    fold cfg in K. subst ready. rewrite C, K in *. cbn [andb] in *.
    destruct (truthy (model cfg)).
    + destruct (genai_load (api_key cfg) (model cfg)) as [e0|client];
        [|discriminate].
      inversion Hc; subst. repeat split.
      intros _ e1 _. eexists. split; [reflexivity|].
      eexists. reflexivity.
    + inversion Hc; subst.
      destruct (genai_load (api_key cfg) (model cfg)); repeat split;
        discriminate.
  - subst ready. rewrite C. cbn [andb].
    destruct (genai_load (api_key cfg) (model cfg)); repeat split;
      try exact Hi; discriminate.
Qed.

(** The GPT block. *)
Lemma gpt_block config providers :
  let cfg := provider_config_of (section_of config "openai") "gpt-3.5-turbo" in
  let ready := credential_configured config "openai" && truthy (model cfg) in
  exists tr,
    RequestProcessor.initialize_one py_message config "openai" "gpt"
      "GPT" "gpt-3.5-turbo" (GPTProvider.__init__ py_str openai_load)
      providers
    = (tr, inr match openai_load (api_key cfg) with
               | inr client =>
                   if ready
                   then dict_set providers "gpt"
                          (GPTProvider.instance py_str cfg (Some client))
                   else providers
               | inl _ => providers
               end) /\
    client_inits tr = (if ready then ["GPTProvider"] else []) /\
    (ready = true ->
     forall e, openai_load (api_key cfg) = inl e ->
               exists w, warnings tr = [w] /\
                         starts_with w "Failed to initialize GPT provider: ").
Proof.
  intros cfg ready.
  destruct (initialize_one_outcome config "openai" "gpt"
              "GPT" "gpt-3.5-turbo" (GPTProvider.__init__ py_str openai_load)
              providers) as (tr & ps & E & O).
  fold cfg in O. rewrite E. exists tr.
  rewrite gpt_init_cases in O.
  destruct O as [(C & tr' & p & Hc & -> & ->)
                |[(C & tr' & e & Hc & -> & ->)
                 |(C & -> & Hi & Ht)]].
  - pose proof (credential_configured_api_key _ _ "gpt-3.5-turbo" C) as K.
    fold cfg in K. subst ready. rewrite C, K in *. cbn [andb] in *.
    destruct (truthy (model cfg)); [|discriminate].
    destruct (openai_load (api_key cfg)) as [e|client]; [discriminate|].
    inversion Hc; subst. repeat split. intros _ e He. discriminate.
  - pose proof (credential_configured_api_key _ _ "gpt-3.5-turbo" C) as K.
    fold cfg in K. subst ready. rewrite C, K in *. cbn [andb] in *.
    destruct (truthy (model cfg)).
    + destruct (openai_load (api_key cfg)) as [e0|client]; [|discriminate].
      inversion Hc; subst. repeat split.
      intros _ e1 _. eexists. split; [reflexivity|].
      eexists. reflexivity.
    + inversion Hc; subst.
      destruct (openai_load (api_key cfg)); repeat split; discriminate.
  - subst ready. rewrite C. cbn [andb].
    destruct (openai_load (api_key cfg)); repeat split;
      try exact Hi; discriminate.
Qed.

(** [_initialize_providers] as a whole: the registry is what the GPT
    block makes of what the Gemini block made of the empty registry. *)
Lemma initialize_providers_outcome config :
  let gcfg := provider_config_of (section_of config "gemini") "gemini-pro" in
  let ocfg := provider_config_of (section_of config "openai") "gpt-3.5-turbo" in
  let gready := credential_configured config "gemini" && truthy (model gcfg) in
  let oready := credential_configured config "openai" && truthy (model ocfg) in
  let ps1 := match genai_load (api_key gcfg) (model gcfg) with
             | inr client =>
                 if gready
                 then [("gemini",
                        GeminiProvider.instance py_str gcfg (Some client))]
                 else []
             | inl _ => []
             end in
  exists tr1 tr2,
    RequestProcessor._initialize_providers py_str py_message genai_load
      openai_load config
    = (tr1 ++ tr2,
       inr match openai_load (api_key ocfg) with
           | inr client =>
               if oready
               then dict_set ps1 "gpt"
                      (GPTProvider.instance py_str ocfg (Some client))
               else ps1
           | inl _ => ps1
           end) /\
    client_inits tr1 = (if gready then ["GeminiProvider"] else []) /\
    client_inits tr2 = (if oready then ["GPTProvider"] else []) /\
    (gready = true ->
     forall e, genai_load (api_key gcfg) (model gcfg) = inl e ->
               exists w, warnings tr1 = [w] /\
                         starts_with w "Failed to initialize Gemini provider: ") /\
    (oready = true ->
     forall e, openai_load (api_key ocfg) = inl e ->
               exists w, warnings tr2 = [w] /\
                         starts_with w "Failed to initialize GPT provider: ").
Proof.
  intros gcfg ocfg gready oready ps1.
  destruct (gemini_block config []) as (tr1 & E1 & I1 & W1).
  fold gcfg gready in E1, I1, W1.
  assert (P1 : match genai_load (api_key gcfg) (model gcfg) with
               | inr client =>
                   if gready
                   then dict_set [] "gemini"
                          (GeminiProvider.instance py_str gcfg (Some client))
                   else []
               | inl _ => []
               end = ps1) by reflexivity.
  rewrite P1 in E1.
  destruct (gpt_block config ps1) as (tr2 & E2 & I2 & W2).
  fold ocfg oready in E2, I2, W2.
  exists tr1, tr2. unfold RequestProcessor._initialize_providers.
  rewrite E1. cbn [bind]. rewrite E2. repeat split; assumption.
Qed.

End ProcessorMore.

(** X3.  Which backends get registered.  [_initialize_providers] never
    raises.  ["gemini"] is a key of the registry it returns exactly when
    the [gemini] section of the configuration is a dict with a truthy
    [api_key], its [model] (or the default [gemini-pro]) is truthy, and
    the SDK client can be built; ["gpt"] likewise from the [openai]
    section.  Neither condition mentions the other backend: a backend
    that fails does not keep the other out. *)
Theorem initialize_providers_registers_exactly :
  forall py_str py_message genai_load openai_load config,
    let gcfg := provider_config_of (section_of config "gemini") "gemini-pro" in
    let ocfg :=
      provider_config_of (section_of config "openai") "gpt-3.5-turbo" in
    exists tr providers,
      RequestProcessor._initialize_providers py_str py_message genai_load
        openai_load config = (tr, inr providers) /\
      (dict_contains providers "gemini" = true <->
       credential_configured config "gemini" = true /\
       truthy (model gcfg) = true /\
       exists client, genai_load (api_key gcfg) (model gcfg) = inr client) /\
      (dict_contains providers "gpt" = true <->
       credential_configured config "openai" = true /\
       truthy (model ocfg) = true /\
       exists client, openai_load (api_key ocfg) = inr client).
Proof.
  intros py_str py_message genai_load openai_load config gcfg ocfg.
  destruct (initialize_providers_outcome py_str py_message genai_load
              openai_load config) as (tr1 & tr2 & E & _).
  fold gcfg ocfg in E. rewrite E. do 2 eexists. split; [reflexivity|].
  destruct (genai_load (api_key gcfg) (model gcfg)) as [ge|gc];
    destruct (openai_load (api_key ocfg)) as [oe|oc];
    destruct (credential_configured config "gemini");
    destruct (credential_configured config "openai");
    destruct (truthy (model gcfg)); destruct (truthy (model ocfg));
    cbn; repeat split; intros;
    repeat match goal with
           | H : _ /\ _ |- _ => destruct H
           | H : exists _, _ |- _ => destruct H
           end;
    try discriminate; eauto.
Qed.

(** X4.  When the SDKs are touched.  During [_initialize_providers] the
    client of a backend is constructed at most once, and only if the
    backend's section holds a truthy [api_key] and a truthy model: the
    trace records [GeminiProvider] and [GPTProvider] client constructions
    exactly for the backends so configured, Gemini first. *)
Theorem initialize_providers_sdk_contacts :
  forall py_str py_message genai_load openai_load config,
    let gcfg := provider_config_of (section_of config "gemini") "gemini-pro" in
    let ocfg :=
      provider_config_of (section_of config "openai") "gpt-3.5-turbo" in
    client_inits
      (trace_of (RequestProcessor._initialize_providers py_str py_message
                   genai_load openai_load config))
    = (if credential_configured config "gemini" && truthy (model gcfg)
       then ["GeminiProvider"] else [])
      ++ (if credential_configured config "openai" && truthy (model ocfg)
          then ["GPTProvider"] else []).
Proof.
  intros py_str py_message genai_load openai_load config gcfg ocfg.
  destruct (initialize_providers_outcome py_str py_message genai_load
              openai_load config) as (tr1 & tr2 & E & I1 & I2 & _).
  fold gcfg ocfg in E, I1, I2. rewrite E. unfold trace_of. cbn [fst].
  now rewrite client_inits_app, I1, I2.
Qed.

(** X5.  A backend whose SDK client cannot be built is left out with a
    warning.  If the [gemini] section is configured (truthy [api_key] and
    model) and building the client fails, [_initialize_providers] still
    returns, ["gemini"] is not registered, and a warning that starts with
    [Failed to initialize Gemini provider: ] is logged; the same for GPT. *)
Theorem initialize_providers_sdk_failure :
  forall py_str py_message genai_load openai_load config,
    let gcfg := provider_config_of (section_of config "gemini") "gemini-pro" in
    let ocfg :=
      provider_config_of (section_of config "openai") "gpt-3.5-turbo" in
    exists tr providers,
      RequestProcessor._initialize_providers py_str py_message genai_load
        openai_load config = (tr, inr providers) /\
      (credential_configured config "gemini" && truthy (model gcfg) = true ->
       forall e, genai_load (api_key gcfg) (model gcfg) = inl e ->
         dict_contains providers "gemini" = false /\
         exists w, In w (warnings tr) /\
                   starts_with w "Failed to initialize Gemini provider: ") /\
      (credential_configured config "openai" && truthy (model ocfg) = true ->
       forall e, openai_load (api_key ocfg) = inl e ->
         dict_contains providers "gpt" = false /\
         exists w, In w (warnings tr) /\
                   starts_with w "Failed to initialize GPT provider: ").
Proof.
  intros py_str py_message genai_load openai_load config gcfg ocfg.
  destruct (initialize_providers_outcome py_str py_message genai_load
              openai_load config) as (tr1 & tr2 & E & _ & _ & W1 & W2).
  fold gcfg ocfg in E, W1, W2. rewrite E. do 2 eexists.
  split; [reflexivity|]. split.
  - intros R e He. destruct (W1 R e He) as (w & Hw & Hs). split.
    + rewrite He.
      destruct (openai_load (api_key ocfg));
        [|destruct (_ && _)]; reflexivity.
    + exists w. split; [|exact Hs].
      rewrite warnings_app, Hw. now left.
  - intros R e He. destruct (W2 R e He) as (w & Hw & Hs). split.
    + rewrite He.
      destruct (genai_load (api_key gcfg) (model gcfg));
        [|destruct (_ && _)]; reflexivity.
    + exists w. split; [|exact Hs].
      rewrite warnings_app, Hw. apply in_or_app. right. now left.
Qed.

(** X5 with the OpenAI package missing while both keys are configured:
    GPT is left out, a warning is logged. *)
Lemma initialize_providers_sdk_failure_witness :
  exists tr providers,
    RequestProcessor._initialize_providers Demo.demo_str Demo.demo_message
      Demo.genai_ok DemoEnv.openai_missing Demo.config_both
    = (tr, inr providers) /\
    dict_contains providers "gpt" = false /\
    exists w, In w (warnings tr) /\
              starts_with w "Failed to initialize GPT provider: ".
Proof.
  destruct (initialize_providers_sdk_failure Demo.demo_str Demo.demo_message
              Demo.genai_ok DemoEnv.openai_missing Demo.config_both)
    as (tr & providers & E & _ & H).
  exists tr, providers. split; [exact E|].
  apply (H eq_refl (mkExn ImportError "No module named 'openai'")).
  reflexivity.
Defined.

(* ================================================================== *)
(** * Further properties of the processor                               *)
(* ================================================================== *)
Section ProcessorInvariants.
Variable py_str : PyVal -> string.
Variable py_message : PyOp -> PyVal -> string.
Variable genai_load : PyVal -> PyVal -> Exn + GeminiProvider.Client.
Variable openai_load : PyVal -> Exn + GPTProvider.Client.

(** The registry [_initialize_providers] returns has the shape of the
    two blocks, and holds instances of the two classes only. *)
Lemma initialize_providers_shape config tr providers :
  RequestProcessor._initialize_providers py_str py_message genai_load
    openai_load config = (tr, inr providers) ->
  registry_shape providers /\
  (forall name p, dict_get providers name = Some p ->
                  builtin_provider py_str p).
Proof.
  destruct (initialize_providers_outcome py_str py_message genai_load
              openai_load config) as (tr1 & tr2 & E & _).
  rewrite E. intros H. inversion H; subst. clear H E.
  unfold registry_shape, builtin_provider.
  destruct (genai_load _ _) as [ge|gc]; destruct (openai_load _) as [oe|oc];
    repeat match goal with
           | |- context [if ?b then _ else _] => destruct b
           end;
    cbn; (split; [eauto 8|]); intros name p Hp;
    repeat match goal with
           | H : (if ?b then _ else _) = Some _ |- _ =>
               destruct b; [inversion H; subst; clear H|]
           | H : None = Some _ |- _ => discriminate
           end;
    eauto 8.
Qed.

(** [__init__] raises when the configured default cannot be hashed. *)
Lemma init_unhashable config :
  let configured := Config.get config "default_provider" (VStr "gemini") in
  hashable configured = false ->
  exists tr,
    RequestProcessor.__init__ py_str py_message genai_load openai_load config
    = (tr, inl (mkExn TypeError (py_message OpHash configured))).
Proof.
  intros configured Hh. unfold RequestProcessor.__init__.
  destruct (initialize_providers_total py_str py_message genai_load
              openai_load config) as (tr0 & ps & E & _).
  rewrite E. fold configured. cbn [bind].
  unfold RequestProcessor.registry_get.
  destruct configured; try discriminate; cbn; eauto.
Qed.

(** What [__init__] returned: the registry of [_initialize_providers] and
    the default chosen from it. *)
Lemma init_inversion config tr self :
  RequestProcessor.__init__ py_str py_message genai_load openai_load config
  = (tr, inr self) ->
  let configured := Config.get config "default_provider" (VStr "gemini") in
  (exists tr0,
      RequestProcessor._initialize_providers py_str py_message genai_load
        openai_load config = (tr0, inr (RequestProcessor.providers self))) /\
  RequestProcessor.default_provider self =
    match match configured with
          | VStr name => dict_get (RequestProcessor.providers self) name
          | _ => None
          end with
    | Some p => Some p
    | None => RequestProcessor.first_provider (RequestProcessor.providers self)
    end.
Proof.
  intros Hinit configured.
  destruct (hashable configured) eqn:Hh.
  - destruct (init_returns py_str py_message genai_load openai_load config Hh)
      as (tr0 & ps & tr' & self' & E & E' & _ & Hps & _ & Hd & _).
    rewrite E' in Hinit. inversion Hinit; subst.
    split; [eauto|]. exact Hd.
  - destruct (init_unhashable config Hh) as [tr' E'].
    rewrite E' in Hinit. discriminate.
Qed.

(** On every processor a caller can have: the registry has the shape of
    the two blocks, holds only instances of the two classes, and there is
    a default provider exactly when the registry is not empty. *)
Lemma reachable_invariants self :
  RequestProcessor.reachable py_str py_message genai_load openai_load self ->
  registry_shape (RequestProcessor.providers self) /\
  (forall name p, dict_get (RequestProcessor.providers self) name = Some p ->
                  builtin_provider py_str p) /\
  (RequestProcessor.default_provider self = None <->
   RequestProcessor.providers self = []).
Proof.
  induction 1 as [config tr self Hinit | self name tr b self' Hr IH Hsw].
  - destruct (init_inversion _ _ _ Hinit) as ((tr0 & E) & Hd).
    destruct (initialize_providers_shape _ _ _ E) as (Hs & Hb).
    split; [exact Hs|]. split; [exact Hb|].
    rewrite Hd.
    destruct (RequestProcessor.providers self) as [|[k q] r] eqn:P.
    + destruct (Config.get config "default_provider" (VStr "gemini"));
        cbn; split; reflexivity.
    + match goal with
      | |- (match ?m with Some p => Some p | None => _ end) = None <-> _ =>
          destruct m
      end; cbn; split; discriminate.
  - rewrite switch_default_provider_cases in Hsw.
    destruct IH as (Hs & Hb & Hd).
    destruct (dict_get (RequestProcessor.providers self) name) as [p|] eqn:L;
      inversion Hsw; subst; [|repeat split; tauto].
    cbn. split; [exact Hs|]. split; [exact Hb|].
    split; [discriminate|]. intros P. rewrite P in L. discriminate.
Qed.

End ProcessorInvariants.

(** X6.  When construction raises.  [RequestProcessor.__init__] (after
    the logger exists) raises exactly when the configured
    [default_provider] cannot be a dict key, that is when it is a JSON
    list or object; the exception is then the [TypeError] of
    [self.providers.get].  Every other configuration, whatever its
    sections hold and whatever the SDKs do, gives a processor. *)
Theorem init_raises_iff_default_unhashable :
  forall py_str py_message genai_load openai_load config,
    let configured := Config.get config "default_provider" (VStr "gemini") in
    let built := RequestProcessor.__init__ py_str py_message genai_load
                   openai_load config in
    raises built = negb (hashable configured) /\
    (forall e, result_of built = inl e ->
               e = mkExn TypeError (py_message OpHash configured)).
Proof.
  intros py_str py_message genai_load openai_load config configured built.
  destruct (hashable configured) eqn:Hh.
  - destruct (init_returns py_str py_message genai_load openai_load config Hh)
      as (tr0 & ps & tr & self & _ & E & _).
    subst built. rewrite E. split; [reflexivity|]. discriminate.
  - destruct (init_unhashable py_str py_message genai_load openai_load config
                Hh) as [tr E].
    subst built. fold configured in E. rewrite E. split; [reflexivity|].
    cbn. intros e He. now inversion He.
Qed.

(** X7.  The provider names a processor reports.  On a processor built
    by [__init__] (and after any [switch_default_provider]),
    [get_available_providers()] is one of [[]], [["gemini"]], [["gpt"]],
    [["gemini", "gpt"]]: no other name, no duplicate, Gemini first. *)
Theorem available_providers_are_known :
  forall py_str py_message genai_load openai_load self,
    RequestProcessor.reachable py_str py_message genai_load openai_load self ->
    In (RequestProcessor.get_available_providers self)
       [[]; ["gemini"]; ["gpt"]; ["gemini"; "gpt"]].
Proof.
  intros py_str py_message genai_load openai_load self Hr.
  destruct (reachable_invariants _ _ _ _ _ Hr) as (Hs & _).
  unfold RequestProcessor.get_available_providers.
  destruct Hs as [->|[(g & ->)|[(q & ->)|(g & q & ->)]]]; cbn; tauto.
Qed.

Lemma available_providers_are_known_witness :
  In (RequestProcessor.get_available_providers Demo.processor_both)
     [[]; ["gemini"]; ["gpt"]; ["gemini"; "gpt"]].
Proof.
  apply (available_providers_are_known Demo.demo_str Demo.demo_message
           Demo.genai_ok Demo.openai_ok).
  exact demo_processor_both_reachable.
Defined.

(** X8.  A default provider exists exactly when a provider is
    registered.  On a processor built by [__init__] (and after any
    [switch_default_provider]), [default_provider] is [None] if and only
    if [get_available_providers()] is empty; and a default provider is
    always the registry entry under its own name. *)
Theorem default_provider_iff_registry_nonempty :
  forall py_str py_message genai_load openai_load self,
    RequestProcessor.reachable py_str py_message genai_load openai_load self ->
    (RequestProcessor.default_provider self = None <->
     RequestProcessor.get_available_providers self = []) /\
    (forall d, RequestProcessor.default_provider self = Some d ->
               dict_get (RequestProcessor.providers self) (get_provider_name d)
               = Some d /\
               In (get_provider_name d)
                  (RequestProcessor.get_available_providers self)).
Proof.
  intros py_str py_message genai_load openai_load self Hr.
  destruct (reachable_invariants _ _ _ _ _ Hr) as (Hs & _ & Hd).
  destruct (reachable_consistent _ _ _ _ _ Hr) as (Hn & Hreg).
  unfold RequestProcessor.get_available_providers. split.
  - rewrite Hd. unfold dict_keys.
    destruct (RequestProcessor.providers self); cbn; split;
      (reflexivity || discriminate).
  - intros d D. destruct (Hreg d D) as [name L].
    pose proof (Hn _ _ L) as N. rewrite N. split; [exact L|].
    clear - L. unfold dict_keys.
    induction (RequestProcessor.providers self) as [|[k q] r IH];
      [discriminate|].
    cbn in *. destruct (String.eqb name k) eqn:E.
    + apply String.eqb_eq in E. now left.
    + right. now apply IH.
Qed.

Lemma default_provider_iff_registry_nonempty_witness :
  RequestProcessor.default_provider Demo.processor_empty = None <->
  RequestProcessor.get_available_providers Demo.processor_empty = [].
Proof.
  apply (default_provider_iff_registry_nonempty Demo.demo_str
           Demo.demo_message Demo.genai_ok Demo.openai_ok).
  exact demo_processor_empty_reachable.
Defined.

(** X9.  The fallback default follows the order of registration.  When
    [__init__] returns and the configured default names no registered
    provider, the default provider is the Gemini provider if it is
    registered, and the GPT provider only if Gemini is not. *)
Theorem init_fallback_prefers_gemini :
  forall py_str py_message genai_load openai_load config tr self,
    RequestProcessor.__init__ py_str py_message genai_load openai_load config
    = (tr, inr self) ->
    (forall name,
        Config.get config "default_provider" (VStr "gemini") = VStr name ->
        dict_get (RequestProcessor.providers self) name = None) ->
    RequestProcessor.default_provider self =
    match dict_get (RequestProcessor.providers self) "gemini" with
    | Some g => Some g
    | None => dict_get (RequestProcessor.providers self) "gpt"
    end.
Proof.
  intros py_str py_message genai_load openai_load config tr self Hinit Habs.
  destruct (init_inversion _ _ _ _ _ _ _ Hinit) as ((tr0 & E) & Hd).
  destruct (initialize_providers_shape _ _ _ _ _ _ _ E) as (Hs & _).
  rewrite Hd.
  assert (L : match Config.get config "default_provider" (VStr "gemini") with
              | VStr name => dict_get (RequestProcessor.providers self) name
              | _ => None
              end = None).
  { destruct (Config.get config "default_provider" (VStr "gemini"));
      try reflexivity. now apply Habs. }
  rewrite L.
  destruct Hs as [->|[(g & ->)|[(q & ->)|(g & q & ->)]]]; reflexivity.
Qed.

(** X9 with both backends registered and the default [claude]. *)
Lemma init_fallback_prefers_gemini_witness :
  RequestProcessor.default_provider
    (RequestProcessor.mk DemoEnv.config_unknown_default
       [("gemini", Demo.gemini); ("gpt", Demo.gpt)] (Some Demo.gemini))
  = Some Demo.gemini.
Proof.
  refine (init_fallback_prefers_gemini Demo.demo_str Demo.demo_message
            Demo.genai_ok Demo.openai_ok DemoEnv.config_unknown_default
            (fst (RequestProcessor.__init__ Demo.demo_str Demo.demo_message
                    Demo.genai_ok Demo.openai_ok
                    DemoEnv.config_unknown_default))
            _ _ _).
  - reflexivity.
  - intros name H. inversion H. reflexivity.
Defined.

(* ================================================================== *)
(** * Further properties of request processing                          *)
(* ================================================================== *)

Lemma interactions_app tr1 tr2 :
  interactions (tr1 ++ tr2) = interactions tr1 ++ interactions tr2.
Proof.
  induction tr1 as [|ev r IH]; simpl; [reflexivity|].
  destruct ev; simpl; now rewrite IH.
Qed.

Lemma error_records_app tr1 tr2 :
  error_records (tr1 ++ tr2) = error_records tr1 ++ error_records tr2.
Proof.
  induction tr1 as [|ev r IH]; simpl; [reflexivity|].
  destruct ev; simpl; now rewrite IH.
Qed.

Section RequestMore.
Variable py_str : PyVal -> string.
Variable py_message : PyOp -> PyVal -> string.
Variable genai_load : PyVal -> PyVal -> Exn + GeminiProvider.Client.
Variable openai_load : PyVal -> Exn + GPTProvider.Client.

(** [_select_provider] writes no structured record. *)
Lemma select_provider_records self provider_name :
  interactions (trace_of (RequestProcessor._select_provider py_message self
                            provider_name)) = [] /\
  error_records (trace_of (RequestProcessor._select_provider py_message self
                             provider_name)) = [].
Proof.
  rewrite select_provider_cases.
  destruct provider_name as [name|]; [|split; reflexivity].
  destruct (str_nonempty name); [|split; reflexivity].
  destruct (dict_get (RequestProcessor.providers self) name);
    split; reflexivity.
Qed.

(** A valid request served by provider [p], with the record it logs. *)
Lemma process_request_served self s context history provider_name trs p :
  str_nonempty s = true ->
  RequestProcessor._select_provider py_message self provider_name
  = (trs, inr (Some p)) ->
  exists info last envelope,
    RequestProcessor.process_request py_message self (VStr s) context history
      provider_name
    = (trs ++ [LogInfo info; Generate p s context history; last],
       inr envelope) /\
    ((exists text data,
         generate_response p s context history = inr text /\
         json_first_bad (RequestProcessor.context_value context) = None /\
         last = LogInteraction data /\
         envelope = RequestProcessor.success_envelope text
                      (get_provider_name p) (VStr s) /\
         envelope_field data "request" = Some (VStr s) /\
         envelope_field data "response" = Some (VStr text) /\
         envelope_field data "provider" = Some (VStr (get_provider_name p))) \/
     (exists msg data error_type,
         last = LogError data /\
         envelope = RequestProcessor.failure_envelope msg
                      (get_provider_name p) (VStr s) /\
         envelope_field data "error_type" = Some (VStr error_type) /\
         ((exists e, generate_response p s context history = inl e /\
                     is_ProviderException e = true /\
                     msg = exn_str e /\ error_type = "provider_error") \/
          (msg = "Unexpected error: "
                 +++ match generate_response p s context history with
                     | inl e => exn_str e
                     | inr _ =>
                         match json_first_bad
                                 (RequestProcessor.context_value context) with
                         | Some bad => py_message OpJsonEncode bad
                         | None => EmptyString
                         end
                     end /\
           error_type = "unexpected_error")))).
Proof.
  intros Hs Hsel. unfold RequestProcessor.process_request.
  cbn [truthy isinstance_str]. rewrite Hs. cbn [negb orb].
  rewrite Hsel. cbn [bind].
  unfold RequestProcessor.call_generate, lift, Logger.log_interaction,
    Logger.log_error, Logger.log_info, Logger.json_dumps, emit.
  cbn [bind try_except ret app RequestProcessor.str_value].
  destruct (generate_response p s context history) as [e|text].
  - cbn [bind try_except ret app]. destruct (is_ProviderException e) eqn:PE.
    + cbn. do 3 eexists. split; [reflexivity|]. right.
      do 3 eexists. repeat split. left. eexists. repeat split. exact PE.
    + cbn. do 3 eexists. split; [reflexivity|]. right.
      do 3 eexists. repeat split. right. split; reflexivity.
  - cbn [bind try_except ret app json_first_bad Logger.or_empty_dict truthy].
    destruct (json_first_bad (RequestProcessor.context_value context))
      as [bad|] eqn:J.
    + cbn. do 3 eexists. split; [reflexivity|]. right.
      do 3 eexists. repeat split. right. split; reflexivity.
    + cbn. do 3 eexists. split; [reflexivity|]. left.
      do 2 eexists. repeat split.
Qed.

(** On a processor a caller can have, [_select_provider] resolves to a
    registered provider, and to none only when the registry is empty. *)
Lemma select_provider_reachable self provider_name :
  RequestProcessor.reachable py_str py_message genai_load openai_load self ->
  exists trs sel,
    RequestProcessor._select_provider py_message self provider_name
    = (trs, inr sel) /\
    invocations trs = [] /\
    (sel = None <-> RequestProcessor.providers self = []) /\
    (forall p, sel = Some p ->
               dict_get (RequestProcessor.providers self) (get_provider_name p)
               = Some p).
Proof.
  intros Hr.
  destruct (reachable_invariants _ _ _ _ _ Hr) as (_ & _ & Hd).
  destruct (reachable_consistent _ _ _ _ _ Hr) as (Hn & Hreg).
  assert (Hdef : (RequestProcessor.default_provider self = None <->
                  RequestProcessor.providers self = []) /\
                 (forall p, RequestProcessor.default_provider self = Some p ->
                            dict_get (RequestProcessor.providers self)
                              (get_provider_name p) = Some p)).
  { split; [exact Hd|]. intros p D. destruct (Hreg p D) as [name L].
    now rewrite (Hn _ _ L). }
  rewrite select_provider_cases.
  destruct provider_name as [name|];
    [destruct (str_nonempty name);
     [destruct (dict_get (RequestProcessor.providers self) name) as [p|] eqn:L|]
    |];
    do 2 eexists; (split; [reflexivity|]); (split; [reflexivity|]);
    try exact Hdef.
  split.
  - split; [discriminate|]. intros P. rewrite P in L. discriminate.
  - intros q Hq. inversion Hq; subst. now rewrite (Hn _ _ L).
Qed.

(** What the two provider classes let out of [generate_response]: the
    text, or a [ProviderException] that wraps the SDK's failure. *)
Lemma builtin_generate_response p s context history :
  builtin_provider py_str p ->
  match generate_response p s context history with
  | inr _ => True
  | inl e =>
      is_ProviderException e = true /\
      ((get_provider_name p = "gemini" /\
        starts_with (exn_str e) "Gemini generation failed: ") \/
       (get_provider_name p = "gpt" /\
        starts_with (exn_str e) "GPT generation failed: "))
  end.
Proof.
  intros [(config & client & ->)|(config & client & ->)]; cbn.
  - destruct (GeminiProvider.generate_content client _ _ _); [|exact I].
    split; [reflexivity|]. left. split; [reflexivity|].
    eexists. reflexivity.
  - destruct (GPTProvider.chat_completions_create client _ _ _ _); [|exact I].
    split; [reflexivity|]. right. split; [reflexivity|].
    eexists. reflexivity.
Qed.

End RequestMore.

(** X10.  The shape of every envelope.  For a non-empty string request,
    on any processor, the returned envelope echoes the request under
    [request] and is of one of two kinds: [success] is [True], a
    [response] text is present and there is no [error]; or [success] is
    [False], an [error] text is present and there is no [response]. *)
Theorem envelope_is_success_xor_error :
  forall py_message self s context history provider_name,
    str_nonempty s = true ->
    exists tr envelope,
      RequestProcessor.process_request py_message self (VStr s) context
        history provider_name = (tr, inr envelope) /\
      envelope_field envelope "request" = Some (VStr s) /\
      ((envelope_field envelope "success" = Some (VBool true) /\
        (exists text, envelope_field envelope "response" = Some (VStr text)) /\
        envelope_field envelope "error" = None) \/
       (envelope_field envelope "success" = Some (VBool false) /\
        (exists msg, envelope_field envelope "error" = Some (VStr msg)) /\
        envelope_field envelope "response" = None)).
Proof.
  intros py_message self s context history provider_name Hs.
  destruct (select_provider_total py_message self provider_name)
    as (trs & sel & Hsel & _).
  destruct sel as [p|].
  - destruct (process_request_served py_message self s context history
                provider_name trs p Hs Hsel)
      as (info & last & envelope & E & [(text & data & _ & _ & _ & -> & _)
                                       |(msg & data & ty & _ & -> & _)]).
    + rewrite E. do 2 eexists. split; [reflexivity|].
      split; [reflexivity|]. left. repeat split. eexists. reflexivity.
    + rewrite E. do 2 eexists. split; [reflexivity|].
      split; [reflexivity|]. right. repeat split. eexists. reflexivity.
  - destruct (process_request_no_provider py_message self s context history
                provider_name trs Hs Hsel) as (error_data & E).
    rewrite E. do 2 eexists. split; [reflexivity|].
    split; [reflexivity|]. right. repeat split. eexists. reflexivity.
Qed.

(** X10 on a request that fails in logging. *)
Lemma envelope_is_success_xor_error_witness :
  exists tr envelope,
    Demo.process Demo.processor_both (VStr "hello") Demo.decimal_context None
      None = (tr, inr envelope) /\
    envelope_field envelope "request" = Some (VStr "hello") /\
    ((envelope_field envelope "success" = Some (VBool true) /\
      (exists text, envelope_field envelope "response" = Some (VStr text)) /\
      envelope_field envelope "error" = None) \/
     (envelope_field envelope "success" = Some (VBool false) /\
      (exists msg, envelope_field envelope "error" = Some (VStr msg)) /\
      envelope_field envelope "response" = None)).
Proof.
  apply (envelope_is_success_xor_error Demo.demo_message Demo.processor_both
           "hello" Demo.decimal_context None None).
  reflexivity.
Defined.

(** X11.  One structured log record per request.  For a non-empty
    string request, on any processor, the call writes exactly one
    structured record: an interaction record, carrying the request, the
    response and the provider name of the envelope, when the envelope is
    a success, and an error record when it is a failure.  (The warning of
    a fallback and the info line are unstructured.) *)
Theorem one_log_record_per_request :
  forall py_message self s context history provider_name,
    str_nonempty s = true ->
    let run := RequestProcessor.process_request py_message self (VStr s)
                 context history provider_name in
    exists envelope,
      result_of run = inr envelope /\
      length (interactions (trace_of run))
      + length (error_records (trace_of run)) = 1 /\
      (envelope_field envelope "success" = Some (VBool true) ->
       exists data,
         interactions (trace_of run) = [data] /\
         envelope_field data "request" = Some (VStr s) /\
         envelope_field data "response" = envelope_field envelope "response" /\
         envelope_field data "provider" = envelope_field envelope "provider") /\
      (envelope_field envelope "success" = Some (VBool false) ->
       exists data error_type,
         error_records (trace_of run) = [data] /\
         envelope_field data "error_type" = Some (VStr error_type) /\
         (error_type = "provider_error" \/ error_type = "unexpected_error")).
Proof.
  intros py_message self s context history provider_name Hs run.
  destruct (select_provider_total py_message self provider_name)
    as (trs & sel & Hsel & _).
  destruct (select_provider_records py_message self provider_name)
    as (Hi & He).
  rewrite Hsel in Hi, He. unfold trace_of in Hi, He. cbn [fst] in Hi, He.
  destruct sel as [p|].
  - destruct (process_request_served py_message self s context history
                provider_name trs p Hs Hsel)
      as (info & last & envelope & E
          & [(text & data & _ & _ & -> & -> & Hq & Hr & Hp)
            |(msg & data & ty & -> & -> & Hty & Hcase)]).
    + subst run. rewrite E. unfold trace_of, result_of. cbn [fst snd].
      rewrite interactions_app, error_records_app, Hi, He.
      exists (RequestProcessor.success_envelope text (get_provider_name p)
                (VStr s)).
      split; [reflexivity|]. split; [reflexivity|]. split.
      * intros _. exists data. cbn [app interactions].
        split; [reflexivity|]. split; [exact Hq|].
        split; [exact Hr | exact Hp].
      * discriminate.
    + subst run. rewrite E. unfold trace_of, result_of. cbn [fst snd].
      rewrite interactions_app, error_records_app, Hi, He.
      exists (RequestProcessor.failure_envelope msg (get_provider_name p)
                (VStr s)).
      split; [reflexivity|]. split; [reflexivity|]. split.
      * discriminate.
      * intros _. exists data, ty. cbn [app error_records].
        split; [reflexivity|]. split; [exact Hty|].
        destruct Hcase as [(e & _ & _ & _ & ->)|(_ & ->)]; tauto.
  - destruct (process_request_no_provider py_message self s context history
                provider_name trs Hs Hsel) as (error_data & E).
    pose proof E as E'.
    unfold RequestProcessor.process_request in E'.
    cbn [truthy isinstance_str] in E'. rewrite Hs in E'.
    cbn [negb orb] in E'. rewrite Hsel in E'. cbn in E'.
    inversion E' as [Hd]. apply app_inv_head in Hd. inversion Hd; subst.
    clear E'.
    subst run. rewrite E. unfold trace_of, result_of. cbn [fst snd].
    rewrite interactions_app, error_records_app, Hi, He.
    eexists. split; [reflexivity|]. split; [reflexivity|]. split.
    + discriminate.
    + intros _. do 2 eexists. cbn [app error_records].
      split; [reflexivity|]. split; [reflexivity|]. now left.
Qed.

(** X11 on a plain request. *)
Lemma one_log_record_per_request_witness :
  length (interactions
            (trace_of (Demo.process Demo.processor_both (VStr "hello") None
                         None None)))
  + length (error_records
              (trace_of (Demo.process Demo.processor_both (VStr "hello") None
                           None None)))
  = 1.
Proof.
  destruct (one_log_record_per_request Demo.demo_message Demo.processor_both
              "hello" None None None eq_refl) as (envelope & _ & H & _).
  exact H.
Defined.

(** X12.  A registered provider serves every request.  On a processor
    built by [__init__] (and after any [switch_default_provider]), a
    non-empty string request gets the envelope without [provider] exactly
    when the registry is empty.  Otherwise, whatever [provider_name] is,
    exactly one provider is called, once; it is the registry entry under
    the name the envelope gives as [provider]. *)
Theorem nonempty_registry_serves_every_request :
  forall py_str py_message genai_load openai_load self s context history
         provider_name,
    RequestProcessor.reachable py_str py_message genai_load openai_load self ->
    str_nonempty s = true ->
    exists tr envelope,
      RequestProcessor.process_request py_message self (VStr s) context
        history provider_name = (tr, inr envelope) /\
      (envelope_field envelope "provider" = None <->
       RequestProcessor.get_available_providers self = []) /\
      (RequestProcessor.get_available_providers self <> [] ->
       exists name p,
         dict_get (RequestProcessor.providers self) name = Some p /\
         invocations tr = [(p, s)] /\
         envelope_field envelope "provider" = Some (VStr name)).
Proof.
  intros py_str py_message genai_load openai_load self s context history
         provider_name Hr Hs.
  destruct (select_provider_reachable py_str py_message genai_load
              openai_load self provider_name Hr)
    as (trs & sel & Hsel & Hinv & Hnone & Hreg).
  assert (Hk : RequestProcessor.get_available_providers self = [] <->
               RequestProcessor.providers self = []).
  { unfold RequestProcessor.get_available_providers, dict_keys.
    destruct (RequestProcessor.providers self); cbn; split;
      (reflexivity || discriminate). }
  destruct sel as [p|].
  - destruct (process_request_served py_message self s context history
                provider_name trs p Hs Hsel)
      as (info & last & envelope & E & Hcase).
    assert (Hlast : invocations [last] = [] /\
                    envelope_field envelope "provider"
                    = Some (VStr (get_provider_name p))).
    { destruct Hcase as [(text & data & _ & _ & -> & -> & _)
                        |(msg & data & ty & -> & -> & _)];
        split; reflexivity. }
    destruct Hlast as (Hl & Hp).
    rewrite E. do 2 eexists. split; [reflexivity|]. split.
    + rewrite Hp, Hk, <- Hnone. split; discriminate.
    + intros _. exists (get_provider_name p), p.
      split; [now apply Hreg|]. split; [|exact Hp].
      rewrite invocations_app, Hinv.
      change [LogInfo info; Generate p s context history; last]
        with ([LogInfo info; Generate p s context history] ++ [last]).
      rewrite invocations_app, Hl. reflexivity.
  - destruct (process_request_no_provider py_message self s context history
                provider_name trs Hs Hsel) as (error_data & E).
    rewrite E. do 2 eexists. split; [reflexivity|].
    assert (P : RequestProcessor.providers self = []) by now apply Hnone.
    split.
    + rewrite Hk. split; [intros _; exact P | reflexivity].
    + intros Hne. exfalso. apply Hne. now apply Hk.
Qed.

(** X12 with a name that is not registered. *)
Lemma nonempty_registry_serves_every_request_witness :
  exists tr envelope,
    Demo.process Demo.processor_both (VStr "hello") None None
      (Some "nonexistent") = (tr, inr envelope) /\
    (envelope_field envelope "provider" = None <->
     RequestProcessor.get_available_providers Demo.processor_both = []) /\
    (RequestProcessor.get_available_providers Demo.processor_both <> [] ->
     exists name p,
       dict_get (RequestProcessor.providers Demo.processor_both) name = Some p /\
       invocations tr = [(p, "hello")] /\
       envelope_field envelope "provider" = Some (VStr name)).
Proof.
  apply (nonempty_registry_serves_every_request Demo.demo_str
           Demo.demo_message Demo.genai_ok Demo.openai_ok
           Demo.processor_both).
  - exact demo_processor_both_reachable.
  - reflexivity.
Defined.

(** X13.  A switch takes effect on the next request.  After
    [switch_default_provider(name)] returned [True], a request without
    [provider_name] calls the provider registered under [name], and the
    envelope's [provider] is [name]; requests that name a registered
    provider are routed as before the switch. *)
Theorem switch_then_request_uses_new_default :
  forall py_str py_message genai_load openai_load self name tr self' s
         context history,
    RequestProcessor.reachable py_str py_message genai_load openai_load self ->
    RequestProcessor.switch_default_provider py_message self name
    = (tr, inr (true, self')) ->
    str_nonempty s = true ->
    (exists p tr' envelope,
        dict_get (RequestProcessor.providers self) name = Some p /\
        RequestProcessor.process_request py_message self' (VStr s) context
          history None = (tr', inr envelope) /\
        invocations tr' = [(p, s)] /\
        envelope_field envelope "provider" = Some (VStr name)) /\
    (forall other q,
        dict_get (RequestProcessor.providers self) other = Some q ->
        RequestProcessor.process_request py_message self' (VStr s) context
          history (Some other)
        = RequestProcessor.process_request py_message self (VStr s) context
            history (Some other)).
Proof.
  intros py_str py_message genai_load openai_load self name tr self' s
         context history Hr Hsw Hs.
  destruct (reachable_consistent _ _ _ _ _ Hr) as (Hn & _).
  pose proof (reachable_keys_nonempty _ _ _ _ _ Hr) as Hkeys.
  rewrite switch_default_provider_cases in Hsw.
  destruct (dict_get (RequestProcessor.providers self) name) as [p|] eqn:L;
    [|discriminate].
  inversion Hsw; subst. clear Hsw. split.
  - assert (Hsel : RequestProcessor._select_provider py_message
                     (RequestProcessor.mk (RequestProcessor.config self)
                        (RequestProcessor.providers self) (Some p)) None
                   = ([], inr (Some p))) by reflexivity.
    destruct (process_request_served py_message _ s context history None [] p
                Hs Hsel) as (info & last & envelope & E & Hcase).
    exists p. do 2 eexists. split; [reflexivity|]. split; [exact E|].
    rewrite (Hn _ _ L) in Hcase.
    destruct Hcase as [(text & data & _ & _ & -> & -> & _)
                      |(msg & data & ty & -> & -> & _)];
      split; reflexivity.
  - intros other q Lq.
    unfold RequestProcessor.process_request.
    rewrite !select_provider_cases. cbn [RequestProcessor.providers].
    now rewrite (Hkeys _ _ Lq), Lq.
Qed.

(** X13 on the processor of [config_both], switched to GPT. *)
Lemma switch_then_request_uses_new_default_witness :
  exists p tr' envelope,
    dict_get (RequestProcessor.providers Demo.processor_both) "gpt" = Some p /\
    Demo.process DemoEnv.processor_switched (VStr "hello") None None None
    = (tr', inr envelope) /\
    invocations tr' = [(p, "hello")] /\
    envelope_field envelope "provider" = Some (VStr "gpt").
Proof.
  refine (proj1 (switch_then_request_uses_new_default Demo.demo_str
                   Demo.demo_message Demo.genai_ok Demo.openai_ok
                   Demo.processor_both "gpt" _ DemoEnv.processor_switched
                   "hello" None None _ _ _)).
  - exact demo_processor_both_reachable.
  - reflexivity.
  - reflexivity.
Defined.

(** X14.  What a processor of the two provider classes can answer.  On a
    processor built by [__init__] (and after any
    [switch_default_provider]), a non-empty string request whose context
    can be JSON-encoded ends in one of four ways: a success envelope; the
    error [No AI provider available]; an error that starts with
    [Gemini generation failed: ] from provider [gemini]; or an error that
    starts with [GPT generation failed: ] from provider [gpt].  In
    particular no error starts with [Unexpected error: ]: both classes
    wrap every failure of their SDK call in a [ProviderException]. *)
Theorem builtin_processor_outcomes :
  forall py_str py_message genai_load openai_load self s context history
         provider_name,
    RequestProcessor.reachable py_str py_message genai_load openai_load self ->
    str_nonempty s = true ->
    json_first_bad (RequestProcessor.context_value context) = None ->
    exists tr envelope,
      RequestProcessor.process_request py_message self (VStr s) context
        history provider_name = (tr, inr envelope) /\
      (envelope_field envelope "success" = Some (VBool true) \/
       envelope_field envelope "error"
       = Some (VStr "No AI provider available") \/
       (exists msg,
           envelope_field envelope "error" = Some (VStr msg) /\
           starts_with msg "Gemini generation failed: " /\
           envelope_field envelope "provider" = Some (VStr "gemini")) \/
       (exists msg,
           envelope_field envelope "error" = Some (VStr msg) /\
           starts_with msg "GPT generation failed: " /\
           envelope_field envelope "provider" = Some (VStr "gpt"))).
Proof.
  intros py_str py_message genai_load openai_load self s context history
         provider_name Hr Hs Hj.
  destruct (select_provider_reachable py_str py_message genai_load
              openai_load self provider_name Hr)
    as (trs & sel & Hsel & _ & _ & Hreg).
  destruct (reachable_invariants _ _ _ _ _ Hr) as (_ & Hb & _).
  destruct sel as [p|].
  - pose proof (builtin_generate_response py_str p s context history
                  (Hb _ _ (Hreg p eq_refl))) as Hg.
    destruct (process_request_with_provider py_message self s context history
                provider_name trs p Hs Hsel) as (info & last & E & _).
    rewrite E, Hj. do 2 eexists. split; [reflexivity|].
    destruct (generate_response p s context history) as [e|text].
    + destruct Hg as (PE & [(N & S)|(N & S)]); rewrite PE, N.
      * right. right. left. exists (exn_str e). repeat split. exact S.
      * right. right. right. exists (exn_str e). repeat split. exact S.
    + left. reflexivity.
  - destruct (process_request_no_provider py_message self s context history
                provider_name trs Hs Hsel) as (error_data & E).
    rewrite E. do 2 eexists. split; [reflexivity|]. right. left. reflexivity.
Qed.

(** X14 on a request with a plain context. *)
Lemma builtin_processor_outcomes_witness :
  exists tr envelope,
    Demo.process Demo.processor_both (VStr "hello")
      (Some [("user_type", VStr "investor")]) None None = (tr, inr envelope) /\
    (envelope_field envelope "success" = Some (VBool true) \/
     envelope_field envelope "error"
     = Some (VStr "No AI provider available") \/
     (exists msg,
         envelope_field envelope "error" = Some (VStr msg) /\
         starts_with msg "Gemini generation failed: " /\
         envelope_field envelope "provider" = Some (VStr "gemini")) \/
     (exists msg,
         envelope_field envelope "error" = Some (VStr msg) /\
         starts_with msg "GPT generation failed: " /\
         envelope_field envelope "provider" = Some (VStr "gpt"))).
Proof.
  apply (builtin_processor_outcomes Demo.demo_str Demo.demo_message
           Demo.genai_ok Demo.openai_ok Demo.processor_both).
  - exact demo_processor_both_reachable.
  - reflexivity.
  - reflexivity.
Defined.

(* ================================================================== *)
(** * Further properties: the environment store, empty inputs           *)
(* ================================================================== *)

(** What the blocks of [_initialize_providers] read from a store loaded
    from the environment. *)
Lemma env_sections getenv :
  let config := ConfigLoading._load_from_env getenv in
  section_of config "gemini"
  = VDict [("api_key", ConfigLoading.os_getenv getenv "GEMINI_API_KEY");
           ("model", ConfigLoading.os_getenv_default getenv "GEMINI_MODEL"
                       "gemini-pro")] /\
  section_of config "openai"
  = VDict [("api_key", ConfigLoading.os_getenv getenv "OPENAI_API_KEY");
           ("model", ConfigLoading.os_getenv_default getenv "OPENAI_MODEL"
                       "gpt-3.5-turbo")] /\
  Config.get config "default_provider" (VStr "gemini")
  = ConfigLoading.os_getenv_default getenv "DEFAULT_AI_PROVIDER" "gemini".
Proof.
  cbv zeta. repeat split.
  unfold ConfigLoading.os_getenv_default.
  unfold Config.get, ConfigLoading._load_from_env.
  cbn. unfold ConfigLoading.os_getenv_default.
  destruct (getenv "DEFAULT_AI_PROVIDER"); reflexivity.
Qed.

(** X15.  A processor built from the environment.  With the store of
    [_load_from_env], [RequestProcessor.__init__] always returns a
    processor, whatever the variables hold and whatever the SDKs do.
    Gemini is registered exactly when [GEMINI_API_KEY] is set and not
    empty, the model ([GEMINI_MODEL], or [gemini-pro] when unset) is not
    empty, and the SDK client can be built; GPT likewise from
    [OPENAI_API_KEY] and [OPENAI_MODEL]. *)
Theorem processor_from_environment :
  forall py_str py_message genai_load openai_load getenv,
    let config := ConfigLoading._load_from_env getenv in
    let gmodel :=
      ConfigLoading.os_getenv_default getenv "GEMINI_MODEL" "gemini-pro" in
    let omodel :=
      ConfigLoading.os_getenv_default getenv "OPENAI_MODEL" "gpt-3.5-turbo" in
    exists tr self,
      RequestProcessor.__init__ py_str py_message genai_load openai_load config
      = (tr, inr self) /\
      (dict_contains (RequestProcessor.providers self) "gemini" = true <->
       exists key,
         getenv "GEMINI_API_KEY" = Some key /\ str_nonempty key = true /\
         truthy gmodel = true /\
         exists client, genai_load (VStr key) gmodel = inr client) /\
      (dict_contains (RequestProcessor.providers self) "gpt" = true <->
       exists key,
         getenv "OPENAI_API_KEY" = Some key /\ str_nonempty key = true /\
         truthy omodel = true /\
         exists client, openai_load (VStr key) = inr client).
Proof.
  intros py_str py_message genai_load openai_load getenv config gmodel omodel.
  destruct (env_sections getenv) as (Sg & So & Sd). fold config in Sg, So, Sd.
  assert (Hh : hashable (Config.get config "default_provider" (VStr "gemini"))
               = true).
  { rewrite Sd. unfold ConfigLoading.os_getenv_default.
    destruct (getenv "DEFAULT_AI_PROVIDER"); reflexivity. }
  destruct (init_returns py_str py_message genai_load openai_load config Hh)
    as (tr0 & ps & tr & self & E0 & E & _ & Hps & _).
  exists tr, self. split; [exact E|]. rewrite Hps.
  destruct (initialize_providers_outcome py_str py_message genai_load
              openai_load config) as (tr1 & tr2 & E1 & _).
  rewrite E1 in E0. inversion E0 as [[Htr Hres]]. clear E0 E1 Htr.
  unfold credential_configured. rewrite Sg, So.
  cbn [provider_config_of new_AIProviderConfig api_key model is_dict andb
       credential_of dict_get_default dict_get String.eqb Ascii.eqb Bool.eqb].
  fold gmodel omodel.
  unfold ConfigLoading.os_getenv.
  destruct (getenv "GEMINI_API_KEY") as [gk|];
    destruct (getenv "OPENAI_API_KEY") as [ok|];
    cbn [truthy];
    repeat match goal with
           | |- context [str_nonempty ?k] => destruct (str_nonempty k) eqn:?
           end;
    destruct (truthy gmodel) eqn:?; destruct (truthy omodel) eqn:?;
    cbn [andb];
    repeat match goal with
           | |- context [genai_load ?a ?b] => destruct (genai_load a b) eqn:?
           | |- context [openai_load ?a] => destruct (openai_load a) eqn:?
           end;
    cbn; split; split; intros;
    repeat match goal with
           | H : exists _, _ |- _ => destruct H
           | H : _ /\ _ |- _ => destruct H
           | H : Some _ = Some _ |- _ => inversion H; subst; clear H
           end;
    try discriminate; try congruence; eauto 8.
Qed.

(** X17.  Prompt builders on empty inputs.  An empty context counts as
    no context and an empty history as no history, in both builders.
    With neither, the Gemini text is exactly [User: ] followed by the
    prompt.  The GPT list always has one message more than the history
    has entries before the final one: the system message first, the user
    message with the prompt last. *)
Theorem prompt_builders_on_empty_inputs :
  forall py_str prompt context history,
    (nonempty_opt context = false ->
     GeminiProvider._build_prompt py_str prompt context history
     = GeminiProvider._build_prompt py_str prompt None history /\
     GPTProvider._build_messages py_str prompt context history
     = GPTProvider._build_messages py_str prompt None history) /\
    (nonempty_opt history = false ->
     GeminiProvider._build_prompt py_str prompt context history
     = GeminiProvider._build_prompt py_str prompt context None /\
     GPTProvider._build_messages py_str prompt context history
     = GPTProvider._build_messages py_str prompt context None) /\
    GeminiProvider._build_prompt py_str prompt None None = "User: " +++ prompt /\
    GPTProvider._build_messages py_str prompt None None
    = [GPTProvider.message "system" GPTProvider.system_prompt;
       GPTProvider.message "user" prompt] /\
    length (GPTProvider._build_messages py_str prompt context history)
    = 2 + length (items_of history).
Proof.
  intros py_str prompt context history. repeat split.
  - unfold GeminiProvider._build_prompt. now rewrite H.
  - unfold GPTProvider._build_messages. now rewrite H.
  - unfold GeminiProvider._build_prompt. now rewrite H.
  - unfold GPTProvider._build_messages. now rewrite H.
  - unfold GPTProvider._build_messages.
    destruct (nonempty_opt history) eqn:E.
    + rewrite fold_left_append, !length_app, length_map. cbn. lia.
    + rewrite (items_of_falsy _ E). reflexivity.
Qed.

(** X17 at an empty context. *)
Lemma prompt_builders_on_empty_inputs_witness :
  GeminiProvider._build_prompt Demo.demo_str "hello" (Some []) None
  = GeminiProvider._build_prompt Demo.demo_str "hello" None None.
Proof.
  apply (proj1 (proj1 (prompt_builders_on_empty_inputs Demo.demo_str "hello"
                         (Some []) None) eq_refl)).
Defined.

(* ================================================================== *)
(** * Further properties: failed writes, provider construction          *)
(* ================================================================== *)

(** X18.  A [set] that raises changes nothing.  [config.set(key, value)]
    either returns, or raises [TypeError] and leaves the store exactly
    as it was: the intermediate mappings it creates are only created on
    paths where the whole write succeeds. *)
Theorem config_set_failure_changes_nothing :
  forall py_message c key value c' e,
    Config.set py_message c key value = (c', Some e) ->
    c' = c /\ exn_class e = TypeError.
Proof.
  intros py_message c key value c' e H. unfold Config.set in H.
  destruct (Config.set_loop py_message (Config._config c) (split_dot key)
              value) as [cfg' exn] eqn:E.
  inversion H; subst.
  destruct (set_loop_failure_atomic py_message _ _ _ _ _
              (split_dot_not_nil key) E) as (-> & Hc).
  split; [|exact Hc]. destruct c; reflexivity.
Qed.

(** X18 on the environment store: [default_provider] holds a string, so
    nothing can be set below it. *)
Lemma config_set_failure_changes_nothing_witness :
  fst (Config.set Demo.demo_message Demo.config_both "default_provider.name"
         (VStr "x"))
  = Demo.config_both.
Proof.
  refine (proj1 (config_set_failure_changes_nothing Demo.demo_message
                   Demo.config_both "default_provider.name" (VStr "x") _ _ _)).
  reflexivity.
Defined.

(** X19.  How constructing a provider ends.  [GeminiProvider(config)]
    returns a provider exactly when [api_key] and [model] are truthy and
    the SDK client can be built; the provider then reports the name
    [gemini] and exactly one client was constructed.  Otherwise it raises
    [ValueError] (validation) or [ProviderException] (a missing package
    or any failure of the SDK, wrapped) and nothing else.  The same holds
    for [GPTProvider] with the name [gpt]. *)
Theorem provider_construction_outcomes :
  forall py_str genai_load openai_load config,
    let gemini := GeminiProvider.__init__ py_str genai_load config in
    let gpt := GPTProvider.__init__ py_str openai_load config in
    (raises gemini = false <->
     truthy (api_key config) = true /\ truthy (model config) = true /\
     exists client, genai_load (api_key config) (model config) = inr client) /\
    (forall p, result_of gemini = inr p ->
               get_provider_name p = "gemini" /\
               client_inits (trace_of gemini) = ["GeminiProvider"]) /\
    (forall e, result_of gemini = inl e ->
               exn_class e = ValueError \/ exn_class e = ProviderException) /\
    (raises gpt = false <->
     truthy (api_key config) = true /\ truthy (model config) = true /\
     exists client, openai_load (api_key config) = inr client) /\
    (forall p, result_of gpt = inr p ->
               get_provider_name p = "gpt" /\
               client_inits (trace_of gpt) = ["GPTProvider"]) /\
    (forall e, result_of gpt = inl e ->
               exn_class e = ValueError \/ exn_class e = ProviderException).
Proof.
  intros py_str genai_load openai_load config gemini gpt.
  subst gemini gpt. rewrite gemini_init_cases, gpt_init_cases.
  destruct (truthy (api_key config)); destruct (truthy (model config));
    cbn [andb];
    destruct (genai_load (api_key config) (model config)) as [ge|gc];
    destruct (openai_load (api_key config)) as [oe|oc];
    cbn; repeat split; intros;
    repeat match goal with
           | H : exists _, _ |- _ => destruct H
           | H : _ /\ _ |- _ => destruct H
           | H : inr _ = inr _ |- _ => inversion H; subst; clear H
           | H : inl _ = inl _ |- _ => inversion H; subst; clear H
           end;
    try discriminate; try reflexivity; eauto.
Qed.

(* ================================================================== *)
(** * The further properties on concrete inputs                         *)
(* ================================================================== *)

(** X6 on a configuration whose [default_provider] is a JSON list. *)
Lemma init_raises_iff_default_unhashable_witness :
  raises (RequestProcessor.__init__ Demo.demo_str Demo.demo_message
            Demo.genai_ok Demo.openai_ok DemoEnv.config_list_default)
  = true.
Proof.
  exact (proj1 (init_raises_iff_default_unhashable Demo.demo_str
                  Demo.demo_message Demo.genai_ok Demo.openai_ok
                  DemoEnv.config_list_default)).
Defined.

(** X15 with only [GEMINI_API_KEY] set: Gemini is registered. *)
Lemma processor_from_environment_witness :
  exists tr self,
    RequestProcessor.__init__ Demo.demo_str Demo.demo_message Demo.genai_ok
      Demo.openai_ok (ConfigLoading._load_from_env DemoEnv.env_gemini_only)
    = (tr, inr self) /\
    dict_contains (RequestProcessor.providers self) "gemini" = true.
Proof.
  destruct (processor_from_environment Demo.demo_str Demo.demo_message
              Demo.genai_ok Demo.openai_ok DemoEnv.env_gemini_only)
    as (tr & self & E & Hg & _).
  exists tr, self. split; [exact E|].
  apply Hg. exists "g-key". repeat split. eexists. reflexivity.
Defined.
